(** * The transformer notebook: attention, normalisation, residual wiring

    A shallow embedding of the layer definitions of
    [transformer-checkpoint.ipynb] and the properties its specification
    states about them.

    Modelling conventions.
    - A tensor is its shape together with its indexing function; the
      notebook works with rank 3 [(batch, seq_len, d_model)] and rank 4
      [(batch, h, seq_len, d_k)] tensors.  Entries outside the shape are
      never inspected.
    - Tensor entries are real numbers: every statement below is about the
      exact arithmetic the float32 program approximates.
    - A Python exception is a value of [PyErr]; a computation that may
      raise has type [Py A].
    - The behaviour of the [torch] primitives the notebook calls ([@],
      [transpose], [softmax], [masked_fill_], [view], [nn.Linear],
      [nn.Dropout], [mean], [std]) is written out from their documented
      semantics on the ranks above. *)

From Stdlib Require Import Reals Lra Lia List ZArith String Bool Arith.
From Stdlib Require Import DecimalString.
Import ListNotations.
Local Open Scope R_scope.

(** ** Python exceptions *)

Inductive PyErr : Type :=
| NameError (name : string)
| TypeError (msg : string)
| AttributeError (attr : string)
| ZeroDivisionError
| RuntimeError (msg : string)
| ValueError (msg : string)
| AssertionError (msg : string).

Definition Py (A : Type) : Type := (PyErr + A)%type.

Definition ret {A : Type} (a : A) : Py A := inr a.
Definition raise {A : Type} (e : PyErr) : Py A := inl e.
Definition bind {A B : Type} (c : Py A) (k : A -> Py B) : Py B :=
  match c with
  | inl e => inl e
  | inr a => k a
  end.

Notation "x <- c ;; k" := (bind c (fun x => k))
  (at level 61, c at next level, right associativity).

(** ** Finite sums *)

Fixpoint Rsum (n : nat) (f : nat -> R) : R :=
  match n with
  | O => 0
  | S m => Rsum m f + f m
  end.

(** ** Tensors *)

Record Tensor3 : Type := mkT3 {
  len0 : nat; len1 : nat; len2 : nat;
  at3 : nat -> nat -> nat -> R
}.

Record Tensor4 : Type := mkT4 {
  dim0 : nat; dim1 : nat; dim2 : nat; dim3 : nat;
  at4 : nat -> nat -> nat -> nat -> R
}.

(** A mask holds integers; a mask of lower rank is the rank-4 mask whose
    leading dimensions are 1. *)
Record ZTensor4 : Type := mkZ4 {
  zdim0 : nat; zdim1 : nat; zdim2 : nat; zdim3 : nat;
  zat4 : nat -> nat -> nat -> nat -> Z
}.

Record BTensor4 : Type := mkB4 {
  bdim0 : nat; bdim1 : nat; bdim2 : nat; bdim3 : nat;
  bat4 : nat -> nat -> nat -> nat -> bool
}.

(** Broadcasting: two sizes are compatible when equal or when one is 1;
    a dimension of size 1 is read at index 0. *)
Definition broadcast_dim (a b : nat) : Py nat :=
  if Nat.eqb a b then ret a
  else if Nat.eqb a 1 then ret b
  else if Nat.eqb b 1 then ret a
  else raise (RuntimeError "The size of tensor a must match the size of tensor b").

Definition bidx (d i : nat) : nat := if Nat.eqb d 1 then O else i.

(** [t.transpose(-2, -1)] *)
Definition transpose_last (t : Tensor4) : Tensor4 :=
  mkT4 (dim0 t) (dim1 t) (dim3 t) (dim2 t)
       (fun n hh i j => at4 t n hh j i).

(** [t.transpose(1, 2)] *)
Definition transpose12 (t : Tensor4) : Tensor4 :=
  mkT4 (dim0 t) (dim2 t) (dim1 t) (dim3 t)
       (fun n i hh j => at4 t n hh i j).

(** [a @ b]: batched matrix product over the last two dimensions, the
    leading dimensions broadcast. *)
Definition matmul (a b : Tensor4) : Py Tensor4 :=
  d0 <- broadcast_dim (dim0 a) (dim0 b) ;;
  d1 <- broadcast_dim (dim1 a) (dim1 b) ;;
  if Nat.eqb (dim3 a) (dim2 b) then
    ret (mkT4 d0 d1 (dim2 a) (dim3 b)
           (fun n hh i j =>
              Rsum (dim3 a)
                   (fun c => at4 a (bidx (dim0 a) n) (bidx (dim1 a) hh) i c
                             * at4 b (bidx (dim0 b) n) (bidx (dim1 b) hh) c j)))
  else raise (RuntimeError "mat1 and mat2 shapes cannot be multiplied").

(** [t / s] for a Python float [s] *)
Definition div_scalar (t : Tensor4) (s : R) : Tensor4 :=
  mkT4 (dim0 t) (dim1 t) (dim2 t) (dim3 t)
       (fun n hh i j => at4 t n hh i j / s).

(** [mask == 0] *)
Definition eq_zero (m : ZTensor4) : BTensor4 :=
  mkB4 (zdim0 m) (zdim1 m) (zdim2 m) (zdim3 m)
       (fun n hh i j => Z.eqb (zat4 m n hh i j) 0).

Definition expandable (m t : nat) : bool := Nat.eqb m t || Nat.eqb m 1.

(** [t.masked_fill_(m, value)]: in place, so the mask must broadcast to
    the shape of [t]. *)
Definition masked_fill_ (t : Tensor4) (m : BTensor4) (value : R) : Py Tensor4 :=
  if expandable (bdim0 m) (dim0 t) && expandable (bdim1 m) (dim1 t)
     && expandable (bdim2 m) (dim2 t) && expandable (bdim3 m) (dim3 t)
  then
    ret (mkT4 (dim0 t) (dim1 t) (dim2 t) (dim3 t)
           (fun n hh i j =>
              if bat4 m (bidx (bdim0 m) n) (bidx (bdim1 m) hh)
                        (bidx (bdim2 m) i) (bidx (bdim3 m) j)
              then value
              else at4 t n hh i j))
  else raise (RuntimeError "The size of tensor a must match the size of tensor b").

(** [t.softmax(dim=-1)] *)
Definition softmax_last (t : Tensor4) : Tensor4 :=
  mkT4 (dim0 t) (dim1 t) (dim2 t) (dim3 t)
       (fun n hh i j =>
          exp (at4 t n hh i j)
          / Rsum (dim3 t) (fun c => exp (at4 t n hh i c))).

(** ** [nn.Dropout]

    [p] is the drop probability and [training] the module's mode flag.
    [draw] is the Bernoulli(1-p) sample the random generator yields for
    the call, indexed by the position of the entry: [true] keeps it. *)
Record Dropout : Type := mkDropout {
  p : R;
  training : bool;
  draw : list nat -> bool
}.

Definition dropout_entry (d : Dropout) (idx : list nat) (x : R) : R :=
  if training d then
    if draw d idx then x / (1 - p d) else 0
  else x.

Definition Dropout_call4 (d : Dropout) (t : Tensor4) : Tensor4 :=
  mkT4 (dim0 t) (dim1 t) (dim2 t) (dim3 t)
       (fun n hh i j => dropout_entry d [n; hh; i; j] (at4 t n hh i j)).

Definition Dropout_call3 (d : Dropout) (t : Tensor3) : Tensor3 :=
  mkT3 (len0 t) (len1 t) (len2 t)
       (fun n i j => dropout_entry d [n; i; j] (at3 t n i j)).

(** ** [MultiHeadAttentionBlock.attention] (static method) *)

Definition sentinel : R := -1e9.

Definition attention (query key value : Tensor4) (mask : option ZTensor4)
           (dropout : option Dropout) : Py (Tensor4 * Tensor4) :=
  let d_k := dim3 query in
  qk <- matmul query (transpose_last key) ;;
  let attention_scores := div_scalar qk (sqrt (INR d_k)) in
  attention_scores <-
    match mask with
    | Some m => masked_fill_ attention_scores (eq_zero m) sentinel
    | None => ret attention_scores
    end ;;
  let attention_scores := softmax_last attention_scores in
  let attention_scores :=
    match dropout with
    | Some d => Dropout_call4 d attention_scores
    | None => attention_scores
    end in
  out <- matmul attention_scores value ;;
  ret (out, attention_scores).

(** ** [LayerNormalization]

    [alpha] and [bias] are parameters of shape [(1)]: one learned number
    each, broadcast over every entry. *)
Record LayerNormalization : Type := mkLayerNormalization {
  eps : R;
  alpha : R;
  bias : R
}.

(** The default of [eps: float = 10**-6]. *)
Definition default_eps : R := / 10 ^ 6.

Definition LayerNormalization_init (eps : R) : LayerNormalization :=
  mkLayerNormalization eps 1 0.

(** Mean and standard deviation of one feature vector [f] of width [n].
    torch's [std] is by default the sample standard deviation (Bessel's
    correction, the divisor [max(0, n - 1)]). *)
Definition mean_row (n : nat) (f : nat -> R) : R := Rsum n f / INR n.

Definition std_row (n : nat) (f : nat -> R) : R :=
  sqrt (Rsum n (fun c => (f c - mean_row n f) ^ 2) / INR (n - 1)).

(** [x.mean(dim=-1, keepdim=True)] and [x.std(dim=-1, keepdim=True)] at
    row [(n, i)] *)
Definition mean_last (x : Tensor3) (n i : nat) : R :=
  mean_row (len2 x) (at3 x n i).

Definition std_last (x : Tensor3) (n i : nat) : R :=
  std_row (len2 x) (at3 x n i).

Definition LayerNormalization_forward (self : LayerNormalization) (x : Tensor3)
  : Tensor3 :=
  let mean := mean_last x in
  let std := std_last x in
  mkT3 (len0 x) (len1 x) (len2 x)
       (fun n i c =>
          alpha self * (at3 x n i c - mean n i) / (std n i + eps self)
          + bias self).

(** ** [nn.Dropout] and [nn.Linear] constructors *)

Definition Dropout_init (p : R) (draw : list nat -> bool) : Py Dropout :=
  if Rlt_dec p 0 then
    raise (ValueError "dropout probability has to be between 0 and 1")
  else if Rlt_dec 1 p then
    raise (ValueError "dropout probability has to be between 0 and 1")
  else ret (mkDropout p true draw).

Record Linear : Type := mkLinear {
  in_features : nat;
  out_features : nat;
  weight : nat -> nat -> R;
  lbias : nat -> R
}.

(** The initial weights are drawn at random by torch; they are inputs
    here. *)
Definition Linear_init (i o : Z) (w0 : nat -> nat -> R) (b0 : nat -> R)
  : Py Linear :=
  if (i <? 0)%Z || (o <? 0)%Z then
    raise (RuntimeError "Trying to create tensor with negative dimension")
  else ret (mkLinear (Z.to_nat i) (Z.to_nat o) w0 b0).

Definition Linear_call (l : Linear) (x : Tensor3) : Py Tensor3 :=
  if Nat.eqb (len2 x) (in_features l) then
    ret (mkT3 (len0 x) (len1 x) (out_features l)
           (fun n i o =>
              Rsum (in_features l) (fun c => at3 x n i c * weight l o c)
              + lbias l o))
  else raise (RuntimeError "mat1 and mat2 shapes cannot be multiplied").

(** [a + b] on rank-3 tensors, with broadcasting *)
Definition add3 (a b : Tensor3) : Py Tensor3 :=
  d0 <- broadcast_dim (len0 a) (len0 b) ;;
  d1 <- broadcast_dim (len1 a) (len1 b) ;;
  d2 <- broadcast_dim (len2 a) (len2 b) ;;
  ret (mkT3 d0 d1 d2
         (fun n i c =>
            at3 a (bidx (len0 a) n) (bidx (len1 a) i) (bidx (len2 a) c)
            + at3 b (bidx (len0 b) n) (bidx (len1 b) i) (bidx (len2 b) c))).

(** ** [ResidualConnection] *)

Record ResidualConnection : Type := mkResidualConnection {
  rc_dropout : Dropout;
  norm : LayerNormalization
}.

Definition ResidualConnection_init (dropout : R) (draw : list nat -> bool)
  : Py ResidualConnection :=
  d <- Dropout_init dropout draw ;;
  ret (mkResidualConnection d (LayerNormalization_init default_eps)).

(** A sublayer is any callable from tensors to tensors; it may raise. *)
Definition ResidualConnection_forward (self : ResidualConnection)
           (x : Tensor3) (sublayer : Tensor3 -> Py Tensor3) : Py Tensor3 :=
  y <- sublayer (LayerNormalization_forward (norm self) x) ;;
  add3 x (Dropout_call3 (rc_dropout self) y).

(** ** [PositionalEncoding] *)

Record PositionalEncoding : Type := mkPositionalEncoding {
  pe_d_model : Z;
  pe_seq_len : Z;
  pe_dropout : Dropout;
  pe : Tensor3                 (* registered with [register_buffer] *)
}.

(** [torch.exp(torch.arange(0, d_model, 2).float()
               * (-math.log(10000.0) / d_model))] at index [i] *)
Definition div_term (d_model : Z) (i : nat) : R :=
  exp (INR (2 * i) * (- ln 10000 / IZR d_model)).

(** The table after the two strided assignments: column [c] is written by
    [pe[:, 0::2]] when [c] is even and by [pe[:, 1::2]] when it is odd. *)
Definition pe_entry (d_model : Z) (pos c : nat) : R :=
  if Nat.even c then sin (INR pos * div_term d_model (Nat.div2 c))
  else cos (INR pos * div_term d_model (Nat.div2 c)).

Definition PositionalEncoding_init (d_model seq_len : Z) (dropout : R)
           (draw : list nat -> bool) : Py PositionalEncoding :=
  drop <- Dropout_init dropout draw ;;
  if (seq_len <? 0)%Z || (d_model <? 0)%Z then
    raise (RuntimeError "Trying to create tensor with negative dimension")
  else if (d_model =? 0)%Z then raise ZeroDivisionError
  else
    (* [pe[:, 1::2]] has [d_model // 2] columns and the right-hand side
       [(d_model + 1) // 2]: they agree, or the latter is 1 and
       broadcasts. *)
    if Z.even d_model || (d_model =? 1)%Z then
      ret (mkPositionalEncoding d_model seq_len drop
             (mkT3 1 (Z.to_nat seq_len) (Z.to_nat d_model)
                   (fun _ pos c => pe_entry d_model pos c)))
    else
      raise (RuntimeError "shape mismatch: value tensor cannot be broadcast to indexing result").

(** The tensors of the module that an optimiser updates
    ([nn.Module.parameters()]) and those it only carries
    ([nn.Module.buffers()]). *)
Definition PositionalEncoding_parameters (self : PositionalEncoding)
  : list Tensor3 := [].

Definition PositionalEncoding_buffers (self : PositionalEncoding)
  : list Tensor3 := [pe self].

(** ** [MultiHeadAttentionBlock] *)

Record MultiHeadAttentionBlock : Type := mkMultiHeadAttentionBlock {
  d_model : Z;
  h : Z;
  d_k : Z;
  w_q : Linear;
  w_k : Linear;
  w_v : Linear;
  w_o : Linear;
  dropout : Dropout;
  attention_scores : option Tensor4     (* absent until [forward] sets it *)
}.

Definition set_attention_scores (self : MultiHeadAttentionBlock)
           (scores : Tensor4) : MultiHeadAttentionBlock :=
  mkMultiHeadAttentionBlock (d_model self) (h self) (d_k self)
    (w_q self) (w_k self) (w_v self) (w_o self) (dropout self) (Some scores).

(** The names the class body uses without defining them.  [d_mode]
    (in [__init__]) and [self] (in [forward], whose parameter list is
    [(q, k, v, mask)]) are looked up among the globals; [contigous] is
    looked up among the attributes of [torch.Tensor]. *)
Record Env : Type := mkEnv {
  g_d_mode : option Z;
  g_self : option MultiHeadAttentionBlock;
  t_contigous : option (Tensor4 -> Z -> Z -> Z -> Py Tensor3)
}.

(** The notebook defines none of them. *)
Definition notebook_env : Env := mkEnv None None None.

Definition lookup {A : Type} (name : string) (binding : option A) : Py A :=
  match binding with
  | Some a => ret a
  | None => raise (NameError name)
  end.

(** Python's [a // b] on integers: floor division. *)
Definition floordiv (a b : Z) : Py Z :=
  if (b =? 0)%Z then raise ZeroDivisionError else ret (a / b)%Z.

(** The random initial values of the four projections. *)
Record InitValues : Type := mkInitValues {
  init_weight : nat -> nat -> nat -> R;
  init_bias : nat -> nat -> R;
  init_draw : list nat -> bool
}.

Definition MultiHeadAttentionBlock_init (env : Env) (d_model h : Z)
           (dropout : R) (rng : InitValues) : Py MultiHeadAttentionBlock :=
  d_mode <- lookup "d_mode" (g_d_mode env) ;;
  d_k <- floordiv d_mode h ;;
  w_q <- Linear_init d_model d_model (init_weight rng 0) (init_bias rng 0) ;;
  w_k <- Linear_init d_model d_model (init_weight rng 1) (init_bias rng 1) ;;
  w_v <- Linear_init d_model d_model (init_weight rng 2) (init_bias rng 2) ;;
  w_o <- Linear_init d_model d_model (init_weight rng 3) (init_bias rng 3) ;;
  drop <- Dropout_init dropout (init_draw rng) ;;
  ret (mkMultiHeadAttentionBlock d_model h d_k w_q w_k w_v w_o drop None).

(** What the specification asks of a bad configuration: an error that
    reports it ([assert] or [raise ValueError]). *)
Definition is_configuration_error (e : PyErr) : bool :=
  match e with
  | AssertionError _ | ValueError _ => true
  | _ => false
  end.

(** [x.view(x.shape[0], x.shape[1], h, d_k)]: the last dimension is split
    into [h] blocks of [d_k] entries.  One of the two sizes may be [-1],
    which torch infers from the number of elements. *)
Definition split_heads (x : Tensor3) (h d_k : Z) : Tensor4 :=
  mkT4 (len0 x) (len1 x) (Z.to_nat h) (Z.to_nat d_k)
       (fun n i hh c => at3 x n i (hh * Z.to_nat d_k + c)).

Definition view_heads (x : Tensor3) (h d_k : Z) : Py Tensor4 :=
  let rows := (Z.of_nat (len0 x) * Z.of_nat (len1 x))%Z in
  let numel := (rows * Z.of_nat (len2 x))%Z in
  if (h <? -1)%Z || (d_k <? -1)%Z then
    raise (RuntimeError "invalid shape dimension")
  else if (h =? -1)%Z && (d_k =? -1)%Z then
    raise (RuntimeError "only one dimension can be inferred")
  else if (h =? -1)%Z then
    if (0 <? rows * d_k)%Z && (numel mod (rows * d_k) =? 0)%Z
    then ret (split_heads x (numel / (rows * d_k)) d_k)
    else raise (RuntimeError "shape is invalid for input size")
  else if (d_k =? -1)%Z then
    if (0 <? rows * h)%Z && (numel mod (rows * h) =? 0)%Z
    then ret (split_heads x h (numel / (rows * h)))
    else raise (RuntimeError "shape is invalid for input size")
  else if (rows * h * d_k =? numel)%Z then ret (split_heads x h d_k)
  else raise (RuntimeError "shape is invalid for input size").

(** [MultiHeadAttentionBlock.forward], the function as the class body
    defines it: four parameters [q], [k], [v], [mask], and [self] a free
    name.  The second component is the object bound to the global [self]
    after the call. *)
Definition forward (env : Env) (q k v : Tensor3) (mask : option ZTensor4)
  : Py Tensor3 * option MultiHeadAttentionBlock :=
  match g_self env with
  | None => (raise (NameError "self"), None)
  | Some self =>
      match
        (query <- Linear_call (w_q self) q ;;
         key <- Linear_call (w_k self) k ;;
         value <- Linear_call (w_v self) v ;;
         query <- view_heads query (h self) (d_k self) ;;
         key <- view_heads key (h self) (d_k self) ;;
         value <- view_heads value (h self) (d_k self) ;;
         attention (transpose12 query) (transpose12 key) (transpose12 value)
                   mask (Some (dropout self)))
      with
      | inl e => (inl e, Some self)
      | inr (x, scores) =>
          let self := set_attention_scores self scores in
          (match t_contigous env with
           | None => raise (AttributeError "contigous")
           | Some contigous =>
               x <- contigous (transpose12 x) (Z.of_nat (dim0 x)) (-1)%Z
                              (h self * d_k self)%Z ;;
               Linear_call (w_o self) x
           end,
           Some self)
      end
  end.

(** Calling the module, [block(q, k, v, mask)]: [nn.Module.__call__]
    invokes the bound method, so the block itself is passed first and five
    positional arguments meet the four parameters of [forward]. *)
Inductive Arg : Type :=
| AModule (m : MultiHeadAttentionBlock)
| ATensor (t : Tensor3)
| AMask (m : option ZTensor4).

Definition forward_params : list string :=
  ["q"; "k"; "v"; "mask"]%string.

(** Python binds the positional arguments of a call to the parameters of
    the [def] when their numbers agree; the message below is the one of
    the call [block(q, k, v, mask)]. *)
Definition bind_positional (params : list string) (actuals : list Arg)
  : Py (list Arg) :=
  if Nat.eqb (List.length actuals) (List.length params) then ret actuals
  else raise (TypeError "forward() takes 4 positional arguments but 5 were given").

Definition Module_call (env : Env) (block : MultiHeadAttentionBlock)
           (q k v : Tensor3) (mask : option ZTensor4)
  : Py Tensor3 * option MultiHeadAttentionBlock :=
  match bind_positional forward_params
          [AModule block; ATensor q; ATensor k; ATensor v; AMask mask] with
  | inl e => (inl e, g_self env)
  | inr [ATensor q'; ATensor k'; ATensor v'; AMask mask'] =>
      forward env q' k' v' mask'
  | inr _ =>
      (match g_self env with
       | None => raise (NameError "self")
       | Some _ => raise (TypeError "linear(): argument 'input' must be Tensor")
       end, g_self env)
  end.

(** ** The specification's single-head attention (section 4.1)

    Written from the specification's words, on one matrix of queries
    [(Lq, d_k)], keys [(Lk, d_k)] and values [(Lk, d_v)], to be compared
    with the code's [attention]. *)
Section SpecAttention.
Variables (Lk dk : nat).
Variables (Q K V : nat -> nat -> R).
Variable allowed : nat -> nat -> bool.

Definition spec_score (i j : nat) : R :=
  Rsum dk (fun c => Q i c * K j c) / sqrt (INR dk).

Definition spec_masked_score (i j : nat) : R :=
  if allowed i j then spec_score i j else sentinel.

Definition spec_weight (i j : nat) : R :=
  exp (spec_masked_score i j)
  / Rsum Lk (fun c => exp (spec_masked_score i c)).

End SpecAttention.

(** The causal mask of a sequence of length [L]: position [i] may attend
    to [j] exactly when [j <= i]. *)
Definition causal_mask (L : nat) : ZTensor4 :=
  mkZ4 1 1 L L (fun _ _ i j => if Nat.leb j i then 1%Z else 0%Z).

(** ** Vocabulary of the statements *)

(** Query, key and value have the same leading dimensions, the same
    per-head width, and as many values as keys. *)
Definition attention_shapes (query key value : Tensor4) : Prop :=
  dim0 key = dim0 query /\ dim1 key = dim1 query /\ dim3 key = dim3 query /\
  dim0 value = dim0 query /\ dim1 value = dim1 query /\
  dim2 value = dim2 key.

(** The mask broadcasts to the score tensor [(B, H, Lq, Lk)]. *)
Definition mask_fits (mask : option ZTensor4) (B H Lq Lk : nat) : Prop :=
  match mask with
  | None => True
  | Some m =>
      expandable (zdim0 m) B && expandable (zdim1 m) H
      && expandable (zdim2 m) Lq && expandable (zdim3 m) Lk = true
  end.

(** Whether the mask lets query [i] attend to key [j] in head [(n, hh)]. *)
Definition mask_allowed (mask : option ZTensor4) (n hh i j : nat) : bool :=
  match mask with
  | None => true
  | Some m =>
      negb (Z.eqb (zat4 m (bidx (zdim0 m) n) (bidx (zdim1 m) hh)
                         (bidx (zdim2 m) i) (bidx (zdim3 m) j)) 0)
  end.

Definition dropout_opt (d : option Dropout) (idx : list nat) (x : R) : R :=
  match d with
  | Some d => dropout_entry d idx x
  | None => x
  end.

(** Dropout that leaves its input unchanged: absent, or in evaluation
    mode. *)
Definition dropout_is_identity (d : option Dropout) : Prop :=
  match d with
  | Some d => training d = false
  | None => True
  end.

(** The tensor [(x - mean) / (std + eps)] of [LayerNormalization.forward],
    before the scale [alpha] and the shift [bias] are applied. *)
Definition normalized (eps : R) (x : Tensor3) : Tensor3 :=
  mkT3 (len0 x) (len1 x) (len2 x)
       (fun n i c =>
          (at3 x n i c - mean_last x n i) / (std_last x n i + eps)).


(** ** Concrete inputs *)

(** One batch, one head, two positions, width 1: the first query is
    [1e5], the first key [-3e4], so that their scaled score is [-3e9]. *)
Definition ex_query : Tensor4 :=
  mkT4 1 1 2 1 (fun _ _ i _ => if Nat.eqb i 0 then 1e5 else 0).

Definition ex_key : Tensor4 :=
  mkT4 1 1 2 1 (fun _ _ j _ => if Nat.eqb j 0 then -3e4 else 0).

Definition ex_value : Tensor4 :=
  mkT4 1 1 2 1 (fun _ _ j _ => INR j).

(** The [1 x 1 x 1 x 1] tensor holding [x]. *)
Definition unit4 (x : R) : Tensor4 := mkT4 1 1 1 1 (fun _ _ _ _ => x).

Definition keep_all : list nat -> bool := fun _ => true.

(** [nn.Dropout(0.5)] in training mode, on a call whose draw keeps every
    entry. *)
Definition ex_training_dropout : Dropout := mkDropout (1 / 2) true keep_all.

(** [nn.Dropout(0.5)] after [.eval()]. *)
Definition ex_eval_dropout : Dropout := mkDropout (1 / 2) false keep_all.

(** One feature vector of width 2 with equal entries. *)
Definition ex_constant : Tensor3 := mkT3 1 1 2 (fun _ _ _ => 1).

(** One feature vector of width 2, [(0, 2)]. *)
Definition ex_vector : Tensor3 := mkT3 1 1 2 (fun _ _ c => INR (2 * c)).

(** Initial values: every projection starts at zero. *)
Definition ex_init : InitValues :=
  mkInitValues (fun _ _ _ => 0) (fun _ _ => 0) keep_all.

(** Globals in which [d_mode] has been given the value 10. *)
Definition ex_env_d_mode : Env := mkEnv (Some 10%Z) None None.

(** A block of width 1 with one head: identity projections for queries,
    keys and values, the zero map as output projection, dropout in
    evaluation mode. *)
Definition ex_identity : Linear := mkLinear 1 1 (fun _ _ => 1) (fun _ => 0).
Definition ex_zero : Linear := mkLinear 1 1 (fun _ _ => 0) (fun _ => 0).

Definition ex_block : MultiHeadAttentionBlock :=
  mkMultiHeadAttentionBlock 1 1 1 ex_identity ex_identity ex_identity ex_zero
    ex_eval_dropout None.

(** Globals in which [self] is bound to the block above; the tensor
    attributes are those of torch, which has no [contigous]. *)
Definition ex_env_self : Env := mkEnv None (Some ex_block) None.

(** The same globals after an attribute [contigous] has been patched onto
    [torch.Tensor]; the patch returns one fixed tensor of width 1. *)
Definition ex_env_patched : Env :=
  mkEnv None (Some ex_block)
        (Some (fun _ _ _ _ => ret (mkT3 1 1 1 (fun _ _ _ => 1)))).



(** One batch, one position, width 1, the entry 1. *)
Definition ex_input : Tensor3 := mkT3 1 1 1 (fun _ _ _ => 1).


(** ** The other layers of the notebook *)

(** *** [FeedForwardBlock] *)

Record FeedForwardBlock : Type := mkFeedForwardBlock {
  linear_1 : Linear;
  ff_dropout : Dropout;
  linear_2 : Linear
}.

Definition FeedForwardBlock_init (width d_ff : Z) (prob : R)
           (rng : InitValues) : Py FeedForwardBlock :=
  l1 <- Linear_init width d_ff (init_weight rng 0) (init_bias rng 0) ;;
  drop <- Dropout_init prob (init_draw rng) ;;
  l2 <- Linear_init d_ff width (init_weight rng 1) (init_bias rng 1) ;;
  ret (mkFeedForwardBlock l1 drop l2).

(** [torch.relu(x)] *)
Definition relu (x : Tensor3) : Tensor3 :=
  mkT3 (len0 x) (len1 x) (len2 x) (fun n i c => Rmax 0 (at3 x n i c)).

Definition FeedForwardBlock_forward (self : FeedForwardBlock) (x : Tensor3)
  : Py Tensor3 :=
  x <- Linear_call (linear_1 self) x ;;
  let x := relu x in
  let x := Dropout_call3 (ff_dropout self) x in
  x <- Linear_call (linear_2 self) x ;;
  ret x.

(** *** [Encoder]

    [layers] is an [nn.ModuleList]; each of its modules is called as
    [layer(x, mask)] and may raise. *)
Definition Layer : Type := Tensor3 -> option ZTensor4 -> Py Tensor3.

Record Encoder : Type := mkEncoder {
  layers : list Layer;
  enc_norm : LayerNormalization
}.

Definition Encoder_init (layers : list Layer) : Encoder :=
  mkEncoder layers (LayerNormalization_init default_eps).

(** The loop [for layer in self.layers: x = layer(x, mask)]. *)
Fixpoint run_layers (ls : list Layer) (x : Tensor3) (mask : option ZTensor4)
  : Py Tensor3 :=
  match ls with
  | [] => ret x
  | layer :: rest => x <- layer x mask ;; run_layers rest x mask
  end.

Definition Encoder_forward (self : Encoder) (x : Tensor3)
           (mask : option ZTensor4) : Py Tensor3 :=
  x <- run_layers (layers self) x mask ;;
  ret (LayerNormalization_forward (enc_norm self) x).

(** *** [EncoderBlock]

    [residual_connections] is the [nn.ModuleList] of the two connections
    the constructor builds; the fields below are its entries 0 and 1. *)
Record EncoderBlock : Type := mkEncoderBlock {
  self_attention_block : MultiHeadAttentionBlock;
  feed_forward_block : FeedForwardBlock;
  residual_connections_0 : ResidualConnection;
  residual_connections_1 : ResidualConnection
}.

Definition EncoderBlock_init (sab : MultiHeadAttentionBlock)
           (ffb : FeedForwardBlock) (prob : R)
           (draw0 draw1 : list nat -> bool) : Py EncoderBlock :=
  rc0 <- ResidualConnection_init prob draw0 ;;
  rc1 <- ResidualConnection_init prob draw1 ;;
  ret (mkEncoderBlock sab ffb rc0 rc1).

Definition string_of_nat (n : nat) : string :=
  NilEmpty.string_of_uint (Nat.to_uint n).

Definition arity_message (given : nat) : string :=
  ("forward() takes 4 positional arguments but " ++ string_of_nat given
   ++ " were given")%string.

(** Calling an attention block with any list of positional arguments,
    [block(a1, ..., an)]: the block is passed first.  With three
    arguments the block itself is bound to [q]; the body then looks up
    [self] and, if it is bound, hands the block to [self.w_q].  With any
    other number the call does not reach the body. *)
Definition call_block (env : Env) (block : MultiHeadAttentionBlock)
           (args : list Arg) : Py Tensor3 * option MultiHeadAttentionBlock :=
  match args with
  | [_; _; _] =>
      (match g_self env with
       | None => raise (NameError "self")
       | Some _ => raise (TypeError "linear(): argument 'input' must be Tensor")
       end, g_self env)
  | _ => (raise (TypeError (arity_message (List.length (AModule block :: args)))),
          g_self env)
  end.

(** [EncoderBlock.forward].  The first sublayer evaluates the arguments
    of [self.self_attention_block(x, x, x, src_mask, dropout)], the last
    of which is a name the method does not bind ([g_dropout] is its global
    binding, if any), and then calls the block. *)
Definition EncoderBlock_forward (env : Env) (g_dropout : option Arg)
           (self : EncoderBlock) (x : Tensor3) (src_mask : option ZTensor4)
  : Py Tensor3 :=
  x <- ResidualConnection_forward (residual_connections_0 self) x
         (fun x =>
            dropout <- lookup "dropout" g_dropout ;;
            fst (call_block env (self_attention_block self)
                   [ATensor x; ATensor x; ATensor x; AMask src_mask; dropout])) ;;
  x <- ResidualConnection_forward (residual_connections_1 self) x
         (fun x => FeedForwardBlock_forward (feed_forward_block self) x) ;;
  ret x.

(** *** [InputEmbedding]

    Token ids form an integer tensor [(batch, seq_len)].  [nn.Embedding]
    raises [IndexError], which the layers above never do. *)
Inductive EmbeddingErr : Type :=
| IndexError (msg : string)
| Raised (e : PyErr).

Record IdTensor : Type := mkIdTensor {
  ids0 : nat; ids1 : nat;
  idat : nat -> nat -> Z
}.

Record Embedding : Type := mkEmbedding {
  num_embeddings : nat;
  embedding_dim : nat;
  emb_weight : nat -> nat -> R
}.

Record InputEmbedding : Type := mkInputEmbedding {
  ie_d_model : Z;
  ie_vocab_size : Z;
  embedding : Embedding
}.

Definition InputEmbedding_init (width vocab_size : Z)
           (w0 : nat -> nat -> R) : Py InputEmbedding :=
  if (vocab_size <? 0)%Z || (width <? 0)%Z then
    raise (RuntimeError "Trying to create tensor with negative dimension")
  else ret (mkInputEmbedding width vocab_size
              (mkEmbedding (Z.to_nat vocab_size) (Z.to_nat width) w0)).

Definition id_in_range (V : nat) (t : Z) : bool :=
  (0 <=? t)%Z && (t <? Z.of_nat V)%Z.

Definition ids_in_range (V : nat) (x : IdTensor) : bool :=
  forallb (fun n => forallb (fun i => id_in_range V (idat x n i))
                            (seq 0 (ids1 x)))
          (seq 0 (ids0 x)).

Definition Embedding_call (e : Embedding) (x : IdTensor)
  : EmbeddingErr + Tensor3 :=
  if ids_in_range (num_embeddings e) x then
    inr (mkT3 (ids0 x) (ids1 x) (embedding_dim e)
           (fun n i c => emb_weight e (Z.to_nat (idat x n i)) c))
  else inl (IndexError "index out of range in self").

(** [self.embedding(x) * math.sqrt(self.d_model)]; [math.sqrt] rejects a
    negative argument. *)
Definition InputEmbedding_forward (self : InputEmbedding) (x : IdTensor)
  : EmbeddingErr + Tensor3 :=
  match Embedding_call (embedding self) x with
  | inl e => inl e
  | inr t =>
      if (ie_d_model self <? 0)%Z then
        inl (Raised (ValueError "math domain error"))
      else
        inr (mkT3 (len0 t) (len1 t) (len2 t)
               (fun n i c => at3 t n i c * sqrt (IZR (ie_d_model self))))
  end.

(** *** [PositionalEncoding.forward]

    [self.pe[:, : x.shape[1], :]] keeps the first [x.shape[1]] positions
    of the table.  The attribute [requires_grad] of a tensor is a boolean
    (the method is [requires_grad_]); the notebook calls it. *)
Definition slice_positions (t : Tensor3) (stop : nat) : Tensor3 :=
  mkT3 (len0 t) (Nat.min stop (len1 t)) (len2 t) (at3 t).

Inductive PyValue : Type :=
| VBool (b : bool)
| VFunction (f : bool -> Py Tensor3).

Definition Tensor_requires_grad (t : Tensor3) : PyValue := VBool false.

Definition call_value (f : PyValue) (arg : bool) : Py Tensor3 :=
  match f with
  | VBool _ => raise (TypeError "'bool' object is not callable")
  | VFunction g => g arg
  end.

Definition PositionalEncoding_forward (self : PositionalEncoding)
           (x : Tensor3) : Py Tensor3 :=
  enc <- call_value
           (Tensor_requires_grad (slice_positions (pe self) (len1 x))) false ;;
  x <- add3 x enc ;;
  ret (Dropout_call3 (pe_dropout self) x).

(** ** Vocabulary of the further statements *)

(** Two sizes broadcast. *)
Definition broadcastable (a b : nat) : Prop := a = b \/ a = 1%nat \/ b = 1%nat.

(** The tensor [x + a] for a scalar [a]. *)
Definition shift3 (x : Tensor3) (a : R) : Tensor3 :=
  mkT3 (len0 x) (len1 x) (len2 x) (fun n i c => at3 x n i c + a).

(** The setting of [H] heads of width [dk]: as [single_head_setting], with
    [h = H], [d_k = dk] and model width [D = H * dk]. *)
Record multi_head_setting (env : Env) (self : MultiHeadAttentionBlock)
       (B Lq Lk H dk : nat) (q k v : Tensor3) (mask : option ZTensor4)
  : Prop := mkMultiHead {
    mh_self : g_self env = Some self;
    mh_h : h self = Z.of_nat H;
    mh_d_k : d_k self = Z.of_nat dk;
    mh_B : (0 < B)%nat;
    mh_H : (0 < H)%nat;
    mh_dk : (0 < dk)%nat;
    mh_w_q : in_features (w_q self) = (H * dk)%nat
             /\ out_features (w_q self) = (H * dk)%nat;
    mh_w_k : in_features (w_k self) = (H * dk)%nat
             /\ out_features (w_k self) = (H * dk)%nat;
    mh_w_v : in_features (w_v self) = (H * dk)%nat
             /\ out_features (w_v self) = (H * dk)%nat;
    mh_w_o : in_features (w_o self) = (H * dk)%nat
             /\ out_features (w_o self) = (H * dk)%nat;
    mh_q : len0 q = B /\ len1 q = Lq /\ len2 q = (H * dk)%nat;
    mh_k : len0 k = B /\ len1 k = Lk /\ len2 k = (H * dk)%nat;
    mh_v : len0 v = B /\ len1 v = Lk /\ len2 v = (H * dk)%nat;
    mh_mask : mask_fits mask B H Lq Lk
  }.

(** Further concrete inputs. *)

(** A mask of the shape of the scores of [ex_query] and [ex_key] that
    forbids everything. *)
Definition ex_mask_none_allowed : ZTensor4 := mkZ4 1 1 2 2 (fun _ _ _ _ => 0%Z).

(** A mask of the same shape that allows everything. *)
Definition ex_mask_all_allowed : ZTensor4 := mkZ4 1 1 2 2 (fun _ _ _ _ => 1%Z).

(** A block of width 2 with two heads of width 1; every projection is the
    zero map. *)
Definition ex_zero2 : Linear := mkLinear 2 2 (fun _ _ => 0) (fun _ => 0).

Definition ex_block2 : MultiHeadAttentionBlock :=
  mkMultiHeadAttentionBlock 2 2 1 ex_zero2 ex_zero2 ex_zero2 ex_zero2
    ex_eval_dropout None.

(** Globals in which [self] is bound to that block, with the tensor
    attributes of torch. *)
Definition ex_env_self2 : Env := mkEnv None (Some ex_block2) None.

(** A block of width 10 with the truncated per-head width [10 // 3]. *)
Definition ex_zero10 : Linear := mkLinear 10 10 (fun _ _ => 0) (fun _ => 0).

Definition ex_block_truncated : MultiHeadAttentionBlock :=
  mkMultiHeadAttentionBlock 10 3 3 ex_zero10 ex_zero10 ex_zero10 ex_zero10
    ex_eval_dropout None.

Definition ex_input10 : Tensor3 := mkT3 1 1 10 (fun _ _ _ => 1).

(** A feed-forward block of width 2 and inner width 3, all weights zero,
    dropout in evaluation mode. *)
Definition ex_ffb : FeedForwardBlock :=
  mkFeedForwardBlock (mkLinear 2 3 (fun _ _ => 0) (fun _ => 0))
                     ex_eval_dropout
                     (mkLinear 3 2 (fun _ _ => 0) (fun _ => 0)).

Definition ex_encoder_block : EncoderBlock :=
  mkEncoderBlock ex_block2 ex_ffb
    (mkResidualConnection ex_eval_dropout (LayerNormalization_init default_eps))
    (mkResidualConnection ex_eval_dropout (LayerNormalization_init default_eps)).

(** Two token ids, 0 and 1. *)
Definition ex_ids : IdTensor := mkIdTensor 1 2 (fun _ i => Z.of_nat i).

(** * Properties *)

(** ** Finite sums *)

Lemma Rsum_ext (n : nat) (f g : nat -> R) :
  (forall i, (i < n)%nat -> f i = g i) -> Rsum n f = Rsum n g.
Proof.
  induction n as [|n IH]; intros E; simpl; [reflexivity|].
  rewrite IH by (intros; apply E; lia).
  rewrite (E n) by lia. reflexivity.
Qed.

Lemma Rsum_nonneg (n : nat) (f : nat -> R) :
  (forall i, (i < n)%nat -> 0 <= f i) -> 0 <= Rsum n f.
Proof.
  induction n as [|n IH]; intros P; simpl; [lra|].
  assert (0 <= Rsum n f) by (apply IH; intros; apply P; lia).
  assert (0 <= f n) by (apply P; lia). lra.
Qed.

Lemma Rsum_ge_term (n : nat) (f : nat -> R) (i : nat) :
  (forall k, (k < n)%nat -> 0 <= f k) -> (i < n)%nat -> f i <= Rsum n f.
Proof.
  induction n as [|n IH]; intros P Hi; [lia|]. simpl.
  assert (0 <= f n) by (apply P; lia).
  assert (0 <= Rsum n f) by (apply Rsum_nonneg; intros; apply P; lia).
  destruct (Nat.eq_dec i n) as [->|Hne]; [lra|].
  assert (f i <= Rsum n f) by (apply IH; [intros; apply P; lia | lia]).
  lra.
Qed.

Lemma Rsum_pos (n : nat) (f : nat -> R) :
  (0 < n)%nat -> (forall i, (i < n)%nat -> 0 < f i) -> 0 < Rsum n f.
Proof.
  intros Hn P.
  assert (f O <= Rsum n f).
  { apply Rsum_ge_term; [|exact Hn]. intros k Hk. left. apply P, Hk. }
  specialize (P O Hn). lra.
Qed.

Lemma Rsum_scal_r (n : nat) (f : nat -> R) (c : R) :
  Rsum n (fun i => f i * c) = Rsum n f * c.
Proof.
  induction n as [|n IH]; simpl; [ring|]. rewrite IH. ring.
Qed.

Lemma Rsum_div (n : nat) (f : nat -> R) (c : R) :
  Rsum n (fun i => f i / c) = Rsum n f / c.
Proof. unfold Rdiv. apply Rsum_scal_r. Qed.

(** ** Broadcasting *)

Lemma bidx_lt (d i : nat) : (i < d)%nat -> bidx d i = i.
Proof.
  unfold bidx. destruct (Nat.eqb_spec d 1); [lia | reflexivity].
Qed.

Lemma broadcast_dim_same (a : nat) : broadcast_dim a a = inr a.
Proof. unfold broadcast_dim. rewrite Nat.eqb_refl. reflexivity. Qed.

(** Runs the shape checks of a tensor operation whose operands agree. *)
Ltac step_py :=
  repeat (first [rewrite broadcast_dim_same | rewrite Nat.eqb_refl]; simpl).

(** The code fills where [mask == 0]; the specification keeps where the
    mask allows. *)
Lemma masked_softmax_eq (Lk : nat) (z : nat -> bool) (s : nat -> R) (j : nat) :
  exp (if z j then sentinel else s j)
  / Rsum Lk (fun c => exp (if z c then sentinel else s c))
  = exp (if negb (z j) then s j else sentinel)
    / Rsum Lk (fun c => exp (if negb (z c) then s c else sentinel)).
Proof.
  rewrite if_negb.
  rewrite (Rsum_ext Lk (fun c => exp (if z c then sentinel else s c))
             (fun c => exp (if negb (z c) then s c else sentinel)));
    [reflexivity|].
  intros c _. rewrite if_negb. reflexivity.
Qed.

(** ** What [attention] returns *)

Lemma attention_returns (query key value : Tensor4) (mask : option ZTensor4)
      (dropout : option Dropout) :
  attention_shapes query key value ->
  mask_fits mask (dim0 query) (dim1 query) (dim2 query) (dim2 key) ->
  exists out weights,
    attention query key value mask dropout = inr (out, weights)
    /\ (dim0 weights = dim0 query /\ dim1 weights = dim1 query
        /\ dim2 weights = dim2 query /\ dim3 weights = dim2 key)
    /\ (dim0 out = dim0 query /\ dim1 out = dim1 query
        /\ dim2 out = dim2 query /\ dim3 out = dim3 value)
    /\ (forall n hh i j, (n < dim0 query)%nat -> (hh < dim1 query)%nat ->
          at4 weights n hh i j
          = dropout_opt dropout [n; hh; i; j]
              (spec_weight (dim2 key) (dim3 query)
                 (at4 query n hh) (at4 key n hh)
                 (mask_allowed mask n hh) i j))
    /\ (forall n hh i c, (n < dim0 query)%nat -> (hh < dim1 query)%nat ->
          at4 out n hh i c
          = Rsum (dim2 key)
                 (fun j => at4 weights n hh i j * at4 value n hh j c)).
Proof.
  destruct query as [B H Lq dk Q], key as [B' H' Lk dk' K],
           value as [B'' H'' Lk' dv V].
  unfold attention_shapes; simpl.
  intros (-> & -> & -> & -> & -> & ->) Hfit.
  unfold attention, matmul; simpl.
  destruct mask as [m|]; simpl in *.
  - step_py. unfold masked_fill_; simpl. rewrite Hfit; simpl.
    destruct dropout as [d|]; simpl; step_py;
      (eexists; eexists; split; [reflexivity|]);
      repeat split; simpl; intros;
      repeat rewrite (bidx_lt B n) by assumption;
      repeat rewrite (bidx_lt H hh) by assumption;
      try reflexivity;
      unfold spec_weight, spec_masked_score, spec_score;
      try apply f_equal;
      exact (masked_softmax_eq Lk
               (fun c => (zat4 m (bidx (zdim0 m) n) (bidx (zdim1 m) hh)
                            (bidx (zdim2 m) i) (bidx (zdim3 m) c) =? 0)%Z)
               (fun c => Rsum dk (fun c0 => Q n hh i c0 * K n hh c c0)
                         / sqrt (INR dk)) j).
  - step_py.
    destruct dropout as [d|]; simpl; step_py;
      (eexists; eexists; split; [reflexivity|]);
      repeat split; simpl; intros;
      repeat rewrite (bidx_lt B n) by assumption;
      repeat rewrite (bidx_lt H hh) by assumption;
      reflexivity.
Qed.

(** ** Softmax rows *)

Section SoftmaxRow.
Variables (Lk dk : nat) (Q K : nat -> nat -> R).
Variable allowed : nat -> nat -> bool.

Lemma spec_denominator_pos (i : nat) :
  (0 < Lk)%nat ->
  0 < Rsum Lk (fun c => exp (spec_masked_score dk Q K allowed i c)).
Proof. intros HL. apply Rsum_pos; [exact HL|]. intros; apply exp_pos. Qed.

Lemma spec_weight_pos (i j : nat) :
  (0 < Lk)%nat -> 0 < spec_weight Lk dk Q K allowed i j.
Proof.
  intros HL. unfold spec_weight.
  apply Rdiv_lt_0_compat; [apply exp_pos | apply spec_denominator_pos, HL].
Qed.

Lemma spec_weight_row_sum (i : nat) :
  (0 < Lk)%nat -> Rsum Lk (fun j => spec_weight Lk dk Q K allowed i j) = 1.
Proof.
  intros HL. unfold spec_weight. rewrite Rsum_div.
  apply Rdiv_diag. apply Rgt_not_eq, spec_denominator_pos, HL.
Qed.

(** A key that may be attended to bounds every masked weight of the
    row. *)
Lemma spec_weight_masked_le (i j j0 : nat) :
  (j0 < Lk)%nat -> allowed i j0 = true -> allowed i j = false ->
  spec_weight Lk dk Q K allowed i j
  <= exp (sentinel - spec_score dk Q K i j0).
Proof.
  intros Hj0 Hyes Hno. unfold spec_weight.
  unfold spec_masked_score at 1. rewrite Hno.
  set (S := Rsum Lk (fun c => exp (spec_masked_score dk Q K allowed i c))).
  assert (Hterm : exp (spec_score dk Q K i j0) <= S).
  { unfold S.
    replace (exp (spec_score dk Q K i j0))
      with ((fun c => exp (spec_masked_score dk Q K allowed i c)) j0)
      by (unfold spec_masked_score; rewrite Hyes; reflexivity).
    apply (Rsum_ge_term Lk
             (fun c => exp (spec_masked_score dk Q K allowed i c)) j0);
      [|exact Hj0].
    intros; left; apply exp_pos. }
  assert (He := exp_pos (spec_score dk Q K i j0)).
  assert (Hs := exp_pos sentinel).
  unfold Rminus. rewrite exp_plus, exp_Ropp.
  apply Rmult_le_compat_l; [lra|].
  apply Rinv_le_contravar; assumption.
Qed.
End SoftmaxRow.

Lemma spec_weight_ext (Lk dk : nat) (Q K : nat -> nat -> R)
      (a a' : nat -> nat -> bool) (i j : nat) :
  (forall c, (c < Lk)%nat -> a i c = a' i c) -> (j < Lk)%nat ->
  spec_weight Lk dk Q K a i j = spec_weight Lk dk Q K a' i j.
Proof.
  intros E Hj. unfold spec_weight, spec_masked_score.
  rewrite (E j Hj). f_equal.
  apply Rsum_ext. intros c Hc. rewrite (E c Hc). reflexivity.
Qed.

Lemma causal_mask_allowed (L n hh i j : nat) :
  (i < L)%nat -> (j < L)%nat ->
  mask_allowed (Some (causal_mask L)) n hh i j = Nat.leb j i.
Proof.
  intros Hi Hj. unfold mask_allowed, causal_mask; simpl.
  rewrite (bidx_lt L i Hi), (bidx_lt L j Hj).
  destruct (Nat.leb j i); reflexivity.
Qed.

Lemma causal_mask_fits (B H L : nat) :
  mask_fits (Some (causal_mask L)) B H L L.
Proof.
  unfold mask_fits, expandable; simpl.
  rewrite !Nat.eqb_refl, !orb_true_r. reflexivity.
Qed.

Lemma dropout_entry_nonneg (d : Dropout) (idx : list nat) (x : R) :
  p d < 1 -> 0 <= x -> 0 <= dropout_entry d idx x.
Proof.
  intros Hp Hx. unfold dropout_entry.
  destruct (training d); [|exact Hx].
  destruct (draw d idx); [|lra].
  apply Rmult_le_pos; [exact Hx|]. left. apply Rinv_0_lt_compat. lra.
Qed.

Lemma dropout_opt_identity (d : option Dropout) (idx : list nat) (x : R) :
  dropout_is_identity d -> dropout_opt d idx x = x.
Proof.
  destruct d as [d|]; simpl; [|reflexivity].
  unfold dropout_entry. intros ->. reflexivity.
Qed.

(** ** Scaled dot-product attention *)

(** C3.  On query, key and value of matching shapes (and a mask, if any,
    that broadcasts to the scores), [attention] returns a pair.  Its second
    component is the weight tensor: the row-wise softmax of the scores
    [dot(query[i], key[j]) / sqrt(d_k)] (the masked ones replaced by the
    sentinel), passed through dropout when one is given.  Its first
    component is [Output[i] = sum_j Weight[i,j] * value[j]] computed from
    that same weight tensor. *)
Theorem C3_attention_score_output (query key value : Tensor4)
        (mask : option ZTensor4) (dropout : option Dropout) :
  attention_shapes query key value ->
  mask_fits mask (dim0 query) (dim1 query) (dim2 query) (dim2 key) ->
  exists out weights,
    attention query key value mask dropout = inr (out, weights)
    /\ (forall n hh i j, (n < dim0 query)%nat -> (hh < dim1 query)%nat ->
          spec_score (dim3 query) (at4 query n hh) (at4 key n hh) i j
          = Rsum (dim3 query) (fun c => at4 query n hh i c * at4 key n hh j c)
            / sqrt (INR (dim3 query))
          /\ at4 weights n hh i j
             = dropout_opt dropout [n; hh; i; j]
                 (spec_weight (dim2 key) (dim3 query)
                    (at4 query n hh) (at4 key n hh)
                    (mask_allowed mask n hh) i j))
    /\ (forall n hh i c, (n < dim0 query)%nat -> (hh < dim1 query)%nat ->
          at4 out n hh i c
          = Rsum (dim2 key)
                 (fun j => at4 weights n hh i j * at4 value n hh j c)).
Proof.
  intros Hs Hm.
  destruct (attention_returns query key value mask dropout Hs Hm)
    as (out & weights & E & _ & _ & Hw & Ho).
  exists out, weights. split; [exact E|]. split.
  - intros n hh i j Hn Hh. split; [reflexivity | apply Hw; assumption].
  - exact Ho.
Qed.

Lemma C3_attention_score_output_witness :
  exists out weights,
    attention ex_query ex_key ex_value None None = inr (out, weights)
    /\ at4 out 0 0 0 0
       = Rsum 2 (fun j => at4 weights 0 0 0 j * at4 ex_value 0 0 j 0).
Proof.
  destruct (C3_attention_score_output ex_query ex_key ex_value None None)
    as (out & weights & E & _ & Ho).
  - unfold attention_shapes; simpl; repeat split; reflexivity.
  - exact I.
  - exists out, weights. split; [exact E|].
    apply (Ho 0%nat 0%nat 0%nat 0%nat); simpl; lia.
Defined.

(** C9.  With [mask = None] no score is replaced: the returned weights are
    the row-wise softmax of the scaled scores over all key positions,
    passed through dropout when one is given; when dropout is absent or in
    evaluation mode they are that softmax itself, and every key position
    has a positive weight. *)
Theorem C9_no_mask_plain_softmax (query key value : Tensor4)
        (dropout : option Dropout) :
  attention_shapes query key value ->
  exists out weights,
    attention query key value None dropout = inr (out, weights)
    /\ forall n hh i j, (n < dim0 query)%nat -> (hh < dim1 query)%nat ->
         let score := spec_score (dim3 query) (at4 query n hh) (at4 key n hh) in
         let softmax :=
           exp (score i j) / Rsum (dim2 key) (fun c => exp (score i c)) in
         at4 weights n hh i j = dropout_opt dropout [n; hh; i; j] softmax
         /\ (dropout_is_identity dropout -> (j < dim2 key)%nat ->
             at4 weights n hh i j = softmax /\ 0 < at4 weights n hh i j).
Proof.
  intros Hs.
  destruct (attention_returns query key value None dropout Hs I)
    as (out & weights & E & _ & _ & Hw & _).
  exists out, weights. split; [exact E|].
  intros n hh i j Hn Hh score softmax.
  assert (Hsm : spec_weight (dim2 key) (dim3 query) (at4 query n hh)
                  (at4 key n hh) (mask_allowed None n hh) i j = softmax)
    by reflexivity.
  rewrite (Hw n hh i j Hn Hh), Hsm. split; [reflexivity|].
  intros Hid Hj. rewrite dropout_opt_identity by exact Hid.
  split; [reflexivity|].
  rewrite <- Hsm. apply spec_weight_pos. lia.
Qed.

Lemma C9_no_mask_plain_softmax_witness :
  exists out weights,
    attention ex_query ex_key ex_value None (Some ex_eval_dropout)
    = inr (out, weights)
    /\ 0 < at4 weights 0 0 0 1.
Proof.
  destruct (C9_no_mask_plain_softmax ex_query ex_key ex_value
              (Some ex_eval_dropout))
    as (out & weights & E & Hw).
  - unfold attention_shapes; simpl; repeat split; reflexivity.
  - exists out, weights. split; [exact E|].
    destruct (Hw 0%nat 0%nat 0%nat 1%nat) as [_ Hpos]; simpl; try lia.
    apply Hpos; simpl; [reflexivity | lia].
Defined.

(** C4, as stated, fails on post-dropout weights.  On the [1 x 1] input
    the softmax weight is 1; [nn.Dropout(0.5)] in training mode, keeping
    the entry, rescales it to 2, and that is the weight returned. *)
Lemma C4_counterexample :
  exists out weights,
    attention (unit4 0) (unit4 0) (unit4 0) None (Some ex_training_dropout)
    = inr (out, weights)
    /\ Rsum (dim3 weights) (fun j => at4 weights 0 0 0 j) = 2
    /\ Rsum (dim3 weights) (fun j => at4 weights 0 0 0 j) <> 1.
Proof.
  destruct (attention_returns (unit4 0) (unit4 0) (unit4 0) None
              (Some ex_training_dropout))
    as (out & weights & E & (_ & _ & _ & Hd3) & _ & Hw & _).
  { unfold attention_shapes; simpl; repeat split; reflexivity. }
  { exact I. }
  exists out, weights. split; [exact E|].
  assert (Hsum : Rsum (dim3 weights) (fun j => at4 weights 0 0 0 j) = 2).
  { rewrite Hd3. simpl. rewrite (Hw 0%nat 0%nat 0%nat 0%nat) by (simpl; lia).
    unfold spec_weight, spec_masked_score, spec_score, dropout_entry; simpl.
    replace (0 + 0 * 0) with 0 by ring.
    rewrite sqrt_1. replace (0 / 1) with 0 by field.
    rewrite exp_0. unfold dropout_entry; simpl. field. }
  rewrite Hsum. split; [reflexivity | lra].
Qed.

(** C4, amended.  For every mask-free input with at least one key
    position, when dropout is absent or in evaluation mode the returned
    weights are non-negative and every row sums to 1; weights returned
    after training-mode dropout (with [p < 1]) are still non-negative. *)
Theorem C4_row_stochastic_without_dropout (query key value : Tensor4)
        (dropout : option Dropout) :
  attention_shapes query key value ->
  (0 < dim2 key)%nat ->
  exists out weights,
    attention query key value None dropout = inr (out, weights)
    /\ dim3 weights = dim2 key
    /\ (dropout_is_identity dropout ->
        forall n hh i, (n < dim0 query)%nat -> (hh < dim1 query)%nat ->
          (forall j, 0 <= at4 weights n hh i j)
          /\ Rsum (dim3 weights) (fun j => at4 weights n hh i j) = 1)
    /\ (forall d, dropout = Some d -> p d < 1 ->
        forall n hh i j, (n < dim0 query)%nat -> (hh < dim1 query)%nat ->
          0 <= at4 weights n hh i j).
Proof.
  intros Hs HL.
  destruct (attention_returns query key value None dropout Hs I)
    as (out & weights & E & (_ & _ & _ & Hd3) & _ & Hw & _).
  exists out, weights. split; [exact E|]. split; [exact Hd3|]. split.
  - intros Hid n hh i Hn Hh. split.
    + intros j. rewrite (Hw n hh i j Hn Hh), dropout_opt_identity by exact Hid.
      left. apply spec_weight_pos, HL.
    + rewrite Hd3.
      rewrite (Rsum_ext _ _
                 (fun j => spec_weight (dim2 key) (dim3 query)
                             (at4 query n hh) (at4 key n hh)
                             (mask_allowed None n hh) i j)).
      * apply spec_weight_row_sum, HL.
      * intros j _.
        rewrite (Hw n hh i j Hn Hh). apply dropout_opt_identity, Hid.
  - intros d -> Hp n hh i j Hn Hh.
    rewrite (Hw n hh i j Hn Hh). simpl.
    apply dropout_entry_nonneg; [exact Hp|].
    left. apply spec_weight_pos, HL.
Qed.

Lemma C4_row_stochastic_without_dropout_witness :
  exists out weights,
    attention ex_query ex_key ex_value None (Some ex_eval_dropout)
    = inr (out, weights)
    /\ Rsum (dim3 weights) (fun j => at4 weights 0 0 0 j) = 1.
Proof.
  destruct (C4_row_stochastic_without_dropout ex_query ex_key ex_value
              (Some ex_eval_dropout))
    as (out & weights & E & _ & Hrow & _).
  - unfold attention_shapes; simpl; repeat split; reflexivity.
  - simpl; lia.
  - exists out, weights. split; [exact E|].
    apply (Hrow eq_refl 0%nat 0%nat 0%nat); simpl; lia.
Defined.




(** ** Layer normalisation *)

Lemma Rsum_minus_const (n : nat) (f : nat -> R) (a : R) :
  Rsum n (fun c => f c - a) = Rsum n f - INR n * a.
Proof.
  induction n as [|n IH]; [simpl; ring|].
  rewrite S_INR. simpl. rewrite IH. ring.
Qed.

Lemma mean_row_centered (n : nat) (f : nat -> R) (s : R) :
  (0 < n)%nat -> mean_row n (fun c => (f c - mean_row n f) / s) = 0.
Proof.
  intros Hn. unfold mean_row at 1.
  rewrite Rsum_div, Rsum_minus_const. unfold mean_row.
  assert (INR n <> 0) by (apply not_0_INR; lia).
  replace (Rsum n f - INR n * (Rsum n f / INR n)) with 0 by (field; assumption).
  unfold Rdiv. ring.
Qed.

Lemma std_row_scaled (n : nat) (f : nat -> R) (s : R) :
  (0 < n)%nat -> 0 < s ->
  std_row n (fun c => (f c - mean_row n f) / s) = std_row n f / s.
Proof.
  intros Hn Hs. unfold std_row at 1.
  rewrite mean_row_centered by exact Hn.
  rewrite (Rsum_ext n _ (fun c => (f c - mean_row n f) ^ 2 / s ^ 2)).
  2:{ intros c _. field. lra. }
  rewrite Rsum_div.
  replace (Rsum n (fun c => (f c - mean_row n f) ^ 2) / s ^ 2 / INR (n - 1))
    with (Rsum n (fun c => (f c - mean_row n f) ^ 2) / INR (n - 1) / s ^ 2)
    by (unfold Rdiv; ring).
  rewrite sqrt_div_alt by (apply pow_lt; exact Hs).
  rewrite sqrt_pow2 by lra. reflexivity.
Qed.

Lemma std_row_nonneg (n : nat) (f : nat -> R) : 0 <= std_row n f.
Proof. unfold std_row. apply sqrt_pos. Qed.

(** C6, as stated, fails on a constant feature vector: its standard
    deviation is 0, the normalised vector is all zero, and so is its
    standard deviation. *)
Lemma C6_counterexample :
  std_last (normalized default_eps ex_constant) 0 0 = 0
  /\ Rabs (std_last (normalized default_eps ex_constant) 0 0 - 1) > 1e-4.
Proof.
  assert (E : std_last (normalized default_eps ex_constant) 0 0 = 0).
  { unfold std_last, normalized, ex_constant; simpl.
    assert (Hm : mean_last (mkT3 1 1 2 (fun _ _ _ => 1)) 0 0 = 1).
    { unfold mean_last, mean_row; simpl. field. }
    rewrite Hm.
    unfold std_row, mean_row; simpl.
    replace ((1 - 1) / (std_last (mkT3 1 1 2 (fun _ _ _ => 1)) 0 0 + default_eps))
      with 0 by (unfold Rdiv; ring).
    replace ((0 + 0 + 0) / (1 + 1)) with 0 by field.
    replace ((0 + (0 - 0) * ((0 - 0) * 1) + (0 - 0) * ((0 - 0) * 1)) / 1)
      with 0 by field.
    apply sqrt_0. }
  split; [exact E|]. rewrite E.
  unfold Rabs. destruct (Rcase_abs (0 - 1)); lra.
Qed.

(** C6, amended.  Layer normalisation subtracts the mean of each feature
    vector, divides by its (sample) standard deviation [s] plus [eps]
    (default [1e-6]) and applies the learned scale and shift.  For a
    feature vector of width at least 2 and [eps > 0], the normalised vector
    has mean 0 and standard deviation [s / (s + eps)], which is within
    [1e-4] of 1 whenever [s >= 9999 * eps]. *)
Theorem C6_layer_normalization (self : LayerNormalization) (x : Tensor3)
        (n i : nat) :
  (2 <= len2 x)%nat -> 0 < eps self ->
  let y := normalized (eps self) x in
  let s := std_last x n i in
  (forall c,
      at3 y n i c = (at3 x n i c - mean_last x n i) / (s + eps self)
      /\ at3 (LayerNormalization_forward self x) n i c
         = alpha self * at3 y n i c + bias self)
  /\ eps (LayerNormalization_init default_eps) = 1e-6
  /\ mean_last y n i = 0
  /\ std_last y n i = s / (s + eps self)
  /\ (9999 * eps self <= s -> Rabs (std_last y n i - 1) <= 1e-4).
Proof.
  intros Hw He y s.
  assert (Hs : 0 <= s) by apply std_row_nonneg.
  assert (Hstd : std_last y n i = s / (s + eps self)).
  { unfold std_last, y, normalized; simpl.
    apply (std_row_scaled (len2 x) (at3 x n i) (std_last x n i + eps self));
      [lia | fold s; lra]. }
  split; [|split; [|split; [|split]]].
  - intros c. split; [reflexivity|].
    unfold LayerNormalization_forward, y, normalized; simpl.
    unfold Rdiv. ring.
  - unfold LayerNormalization_init, default_eps; simpl. lra.
  - unfold mean_last, y, normalized; simpl.
    apply (mean_row_centered (len2 x) (at3 x n i)). lia.
  - exact Hstd.
  - intros Hbig. rewrite Hstd.
    replace (s / (s + eps self) - 1) with (- (eps self / (s + eps self)))
      by (field; lra).
    rewrite Rabs_Ropp, Rabs_pos_eq.
    + apply Rmult_le_reg_r with (s + eps self); [lra|].
      unfold Rdiv. rewrite Rmult_assoc, Rinv_l by lra. lra.
    + apply Rmult_le_pos; [lra|]. left. apply Rinv_0_lt_compat. lra.
Qed.

Lemma C6_layer_normalization_witness :
  mean_last (normalized default_eps ex_vector) 0 0 = 0.
Proof.
  apply (C6_layer_normalization (LayerNormalization_init default_eps)
           ex_vector 0 0).
  - simpl; lia.
  - unfold LayerNormalization_init, default_eps; simpl. lra.
Defined.

(** ** Residual connection *)

(** C8.  [ResidualConnection.forward] normalises its input, hands the
    normalised tensor to the sublayer, applies dropout to what the sublayer
    returns and adds the input itself, not its normalisation: for a
    sublayer result [y] of the shape of [x], the result is
    [x + dropout(y)] with [y = sublayer(norm(x))].  An exception of the
    sublayer propagates. *)
Theorem C8_residual_pre_norm (self : ResidualConnection) (x : Tensor3)
        (sublayer : Tensor3 -> Py Tensor3) :
  (forall e, sublayer (LayerNormalization_forward (norm self) x) = inl e ->
             ResidualConnection_forward self x sublayer = inl e)
  /\ (forall y,
         sublayer (LayerNormalization_forward (norm self) x) = inr y ->
         len0 y = len0 x -> len1 y = len1 x -> len2 y = len2 x ->
         exists out,
           ResidualConnection_forward self x sublayer = inr out
           /\ len0 out = len0 x /\ len1 out = len1 x /\ len2 out = len2 x
           /\ forall n i c,
               (n < len0 x)%nat -> (i < len1 x)%nat -> (c < len2 x)%nat ->
               at3 out n i c
               = at3 x n i c
                 + dropout_entry (rc_dropout self) [n; i; c] (at3 y n i c)).
Proof.
  split.
  - intros e He. unfold ResidualConnection_forward. rewrite He. reflexivity.
  - intros y Hy H0 H1 H2.
    unfold ResidualConnection_forward. rewrite Hy. simpl.
    unfold add3; simpl. rewrite H0, H1, H2. step_py.
    eexists. split; [reflexivity|]. simpl.
    repeat split.
    intros n i c Hn Hi Hc.
    rewrite (bidx_lt _ n Hn), (bidx_lt _ i Hi), (bidx_lt _ c Hc).
    reflexivity.
Qed.

Lemma C8_residual_pre_norm_witness :
  exists out,
    ResidualConnection_forward
      (mkResidualConnection ex_eval_dropout
         (LayerNormalization_init default_eps))
      ex_vector (fun t => ret t)
    = inr out
    /\ len2 out = 2%nat.
Proof.
  destruct (C8_residual_pre_norm
              (mkResidualConnection ex_eval_dropout
                 (LayerNormalization_init default_eps))
              ex_vector (fun t => ret t)) as [_ Hok].
  destruct (Hok _ eq_refl eq_refl eq_refl eq_refl) as (out & E & _ & _ & H2 & _).
  exists out. split; [exact E | exact H2].
Defined.

(** ** Positional encoding *)

Lemma div_term_power (d_model : Z) (i : nat) :
  (d_model <> 0)%Z ->
  div_term d_model i = / Rpower 10000 (INR (2 * i) / IZR d_model).
Proof.
  intros Hd. unfold div_term, Rpower.
  rewrite <- exp_Ropp. f_equal.
  field. apply not_0_IZR. exact Hd.
Qed.

Lemma pe_entry_even (d_model : Z) (pos i : nat) :
  pe_entry d_model pos (2 * i) = sin (INR pos * div_term d_model i).
Proof.
  unfold pe_entry.
  rewrite Nat.even_mul, Nat.div2_double. reflexivity.
Qed.

Lemma pe_entry_odd (d_model : Z) (pos i : nat) :
  pe_entry d_model pos (2 * i + 1) = cos (INR pos * div_term d_model i).
Proof.
  unfold pe_entry.
  replace (2 * i + 1)%nat with (S (2 * i)) by lia.
  rewrite Nat.even_succ, Nat.div2_succ_double.
  rewrite <- Nat.negb_even, Nat.even_mul. reflexivity.
Qed.

Lemma PositionalEncoding_init_inv (d_model seq_len : Z) (dropout : R)
      (draw : list nat -> bool) (m : PositionalEncoding) :
  PositionalEncoding_init d_model seq_len dropout draw = inr m ->
  (0 < d_model)%Z /\ (0 <= seq_len)%Z
  /\ pe m = mkT3 1 (Z.to_nat seq_len) (Z.to_nat d_model)
               (fun _ pos c => pe_entry d_model pos c).
Proof.
  unfold PositionalEncoding_init.
  destruct (Dropout_init dropout draw) as [e|drop]; [discriminate|].
  cbn [bind].
  destruct (Z.ltb_spec seq_len 0); [discriminate|].
  destruct (Z.ltb_spec d_model 0); [discriminate|].
  destruct (Z.eqb_spec d_model 0); [discriminate|].
  cbn [orb].
  destruct (Z.even d_model || (d_model =? 1)%Z); [|discriminate].
  intros [= <-]. repeat split; [lia | assumption].
Qed.

(** C7.  Whenever the constructor returns a module, its table has shape
    [(1, seq_len, d_model)] and holds
    [sin (pos / 10000^(2i/d_model))] at feature [2i] and
    [cos (pos / 10000^(2i/d_model))] at feature [2i+1]; the table is a
    buffer of the module, which has no learnable parameter.  The
    constructor does return for every even model width, sequence length
    and dropout probability in [[0, 1]]. *)
Theorem C7_positional_encoding_table (d_model seq_len : Z) (dropout : R)
        (draw : list nat -> bool) :
  (forall m,
      PositionalEncoding_init d_model seq_len dropout draw = inr m ->
      len0 (pe m) = 1%nat
      /\ len1 (pe m) = Z.to_nat seq_len
      /\ len2 (pe m) = Z.to_nat d_model
      /\ (forall pos i,
             at3 (pe m) 0 pos (2 * i)
             = sin (INR pos / Rpower 10000 (INR (2 * i) / IZR d_model))
             /\ at3 (pe m) 0 pos (2 * i + 1)
                = cos (INR pos / Rpower 10000 (INR (2 * i) / IZR d_model)))
      /\ PositionalEncoding_parameters m = []
      /\ PositionalEncoding_buffers m = [pe m])
  /\ ((0 < d_model)%Z -> Z.even d_model = true -> (0 <= seq_len)%Z ->
      0 <= dropout <= 1 ->
      exists m, PositionalEncoding_init d_model seq_len dropout draw = inr m).
Proof.
  split.
  - intros m Hm.
    destruct (PositionalEncoding_init_inv _ _ _ _ _ Hm) as (Hd & _ & Hpe).
    unfold PositionalEncoding_parameters, PositionalEncoding_buffers.
    rewrite Hpe. cbn [len0 len1 len2 at3].
    repeat split.
    + rewrite pe_entry_even, div_term_power by lia. reflexivity.
    + rewrite pe_entry_odd, div_term_power by lia. reflexivity.
  - intros Hd Heven Hl [Hp0 Hp1].
    unfold PositionalEncoding_init, Dropout_init.
    destruct (Rlt_dec dropout 0) as [C|_]; [lra|].
    destruct (Rlt_dec 1 dropout) as [C|_]; [lra|].
    replace (seq_len <? 0)%Z with false by (symmetry; apply Z.ltb_ge; lia).
    replace (d_model <? 0)%Z with false by (symmetry; apply Z.ltb_ge; lia).
    replace (d_model =? 0)%Z with false by (symmetry; apply Z.eqb_neq; lia).
    rewrite Heven. unfold bind, ret. cbn [orb].
    eexists. reflexivity.
Qed.

Lemma C7_positional_encoding_table_witness :
  exists m,
    PositionalEncoding_init 4 3 (1 / 10) keep_all = inr m
    /\ len2 (pe m) = 4%nat
    /\ at3 (pe m) 0 2 0 = sin (INR 2 / Rpower 10000 (INR (2 * 0) / IZR 4)).
Proof.
  destruct (C7_positional_encoding_table 4 3 (1 / 10) keep_all)
    as [Htable Hret].
  destruct Hret as (m & E).
  - lia.
  - reflexivity.
  - lia.
  - lra.
  - exists m. split; [exact E|].
    destruct (Htable m E) as (_ & _ & H2 & Hentries & _).
    split; [exact H2 | apply (Hentries 2%nat 0%nat)].
Defined.

(** ** Multi-head attention: construction *)

(** C2, as stated, fails.  In the notebook's globals the constructor
    stops at the unbound name [d_mode], whatever the configuration; once
    [d_mode] is bound (to 10), the configuration [d_model = 10], [h = 3]
    is accepted and the per-head width is the truncated quotient 3.  In
    neither case is a configuration error raised. *)
Lemma C2_counterexample :
  MultiHeadAttentionBlock_init notebook_env 10 3 (1 / 10) ex_init
  = inl (NameError "d_mode")
  /\ is_configuration_error (NameError "d_mode") = false
  /\ exists m,
       MultiHeadAttentionBlock_init ex_env_d_mode 10 3 (1 / 10) ex_init
       = inr m
       /\ d_k m = 3%Z /\ (h m * d_k m)%Z <> d_model m.
Proof.
  split; [reflexivity|]. split; [reflexivity|].
  unfold MultiHeadAttentionBlock_init, Dropout_init; simpl.
  destruct (Rlt_dec (1 / 10) 0) as [C|_]; [lra|].
  destruct (Rlt_dec 1 (1 / 10)) as [C|_]; [lra|].
  simpl. eexists. split; [reflexivity|]. simpl. split; [reflexivity | lia].
Qed.

(** C2, amended.  The constructor does not validate divisibility.  When
    the name [d_mode] is bound to an integer, the head count is not zero,
    the width is not negative and the dropout probability lies in
    [[0, 1]], it returns a block whose per-head width is the floor
    quotient [d_mode // h], whether or not [h] divides; and the only
    configuration error it can raise at all is the one of [nn.Dropout],
    for a probability outside [[0, 1]]. *)
Theorem C2_no_divisibility_validation (env : Env) (width heads : Z)
        (prob : R) (rng : InitValues) :
  (forall v, g_d_mode env = Some v -> heads <> 0%Z -> (0 <= width)%Z ->
             0 <= prob <= 1 ->
     exists m,
       MultiHeadAttentionBlock_init env width heads prob rng = inr m
       /\ d_k m = (v / heads)%Z
       /\ d_model m = width /\ h m = heads /\ attention_scores m = None)
  /\ (forall e,
        MultiHeadAttentionBlock_init env width heads prob rng = inl e ->
        is_configuration_error e = true -> prob < 0 \/ 1 < prob).
Proof.
  unfold MultiHeadAttentionBlock_init, Dropout_init, Linear_init, floordiv,
    lookup.
  split.
  - intros v Hv Hh Hw [Hp0 Hp1]. rewrite Hv.
    replace (heads =? 0)%Z with false by (symmetry; apply Z.eqb_neq; exact Hh).
    replace (width <? 0)%Z with false by (symmetry; apply Z.ltb_ge; exact Hw).
    destruct (Rlt_dec prob 0) as [C|_]; [lra|].
    destruct (Rlt_dec 1 prob) as [C|_]; [lra|].
    simpl. eexists. split; [reflexivity|]. simpl. repeat split.
  - intros e.
    destruct (g_d_mode env) as [v|]; simpl; [|intros [= <-]; discriminate].
    destruct (heads =? 0)%Z; simpl; [intros [= <-]; discriminate|].
    destruct (width <? 0)%Z; simpl; [intros [= <-]; discriminate|].
    destruct (Rlt_dec prob 0) as [C|_]; [intros _ _; left; exact C|].
    destruct (Rlt_dec 1 prob) as [C|_]; [intros _ _; right; exact C|].
    simpl. discriminate.
Qed.

Lemma C2_no_divisibility_validation_witness :
  exists m,
    MultiHeadAttentionBlock_init ex_env_d_mode 10 3 (1 / 10) ex_init = inr m
    /\ d_k m = (10 / 3)%Z.
Proof.
  destruct (C2_no_divisibility_validation ex_env_d_mode 10 3 (1 / 10) ex_init)
    as [Hok _].
  destruct (Hok 10%Z) as (m & E & Hdk & _).
  - reflexivity.
  - lia.
  - lia.
  - lra.
  - exists m. split; [exact E | exact Hdk].
Defined.

(** ** Multi-head attention: the forward pass *)

(** What [forward] does to the object bound to [self]: an exception
    before the attention call leaves it as it was, and the assignment
    [x, self.attention_scores = ...] replaces the stored weights and
    nothing else. *)
Lemma forward_state (env : Env) (self : MultiHeadAttentionBlock)
      (q k v : Tensor3) (mask : option ZTensor4) :
  g_self env = Some self ->
  let heads :=
    query <- Linear_call (w_q self) q ;;
    key <- Linear_call (w_k self) k ;;
    value <- Linear_call (w_v self) v ;;
    query <- view_heads query (h self) (d_k self) ;;
    key <- view_heads key (h self) (d_k self) ;;
    value <- view_heads value (h self) (d_k self) ;;
    attention (transpose12 query) (transpose12 key) (transpose12 value)
              mask (Some (dropout self)) in
  (forall e, heads = inl e -> forward env q k v mask = (inl e, Some self))
  /\ (forall x scores, heads = inr (x, scores) ->
        snd (forward env q k v mask)
        = Some (set_attention_scores self scores)).
Proof.
  intros Hself heads. unfold forward. rewrite Hself. fold heads.
  split.
  - intros e ->. reflexivity.
  - intros x scores ->. reflexivity.
Qed.

Lemma set_attention_scores_frame (self : MultiHeadAttentionBlock)
      (scores : Tensor4) :
  let self' := set_attention_scores self scores in
  attention_scores self' = Some scores
  /\ d_model self' = d_model self /\ h self' = h self /\ d_k self' = d_k self
  /\ w_q self' = w_q self /\ w_k self' = w_k self /\ w_v self' = w_v self
  /\ w_o self' = w_o self /\ dropout self' = dropout self.
Proof. simpl. repeat split. Qed.

(** C10, on the code.  Calling the block, [block(q, k, v, mask)], hands
    five positional arguments to the four parameters of [forward]: the
    call raises [TypeError] before any statement of the body runs and the
    object bound to [self] is left as it was.  The body itself, run in the
    notebook's globals, stops at the unbound name [self]. *)
Theorem C10_module_call_stores_nothing (env : Env)
        (block : MultiHeadAttentionBlock) (q k v : Tensor3)
        (mask : option ZTensor4) :
  Module_call env block q k v mask
  = (inl (TypeError "forward() takes 4 positional arguments but 5 were given"),
     g_self env)
  /\ forward notebook_env q k v mask = (inl (NameError "self"), None).
Proof. split; reflexivity. Qed.






(** ** Concrete runs *)

(** Floor division rounds towards minus infinity and rejects a zero
    divisor. *)
Example floordiv_runs :
  floordiv 10 3 = inr 3%Z /\ floordiv (-7) 2 = inr (-4)%Z
  /\ floordiv 1 0 = inl ZeroDivisionError.
Proof. repeat split. Qed.

(** A width of 10 cannot be viewed as 3 heads of width 3: the truncated
    quotient accepted by the constructor is rejected by the first [view]
    of the forward pass. *)
Example view_heads_truncated :
  view_heads (mkT3 1 1 10 (fun _ _ _ => 0)) 3 3
  = inl (RuntimeError "shape is invalid for input size").
Proof. reflexivity. Qed.

(** An inferred size: [view(1, 2, -1, 4)] of a width 8 gives 2 heads. *)
Example view_heads_inferred :
  exists t, view_heads (mkT3 1 2 8 (fun _ _ _ => 0)) (-1) 4 = inr t
            /\ dim2 t = 2%nat /\ dim3 t = 4%nat.
Proof. eexists. split; [reflexivity|]. split; reflexivity. Qed.

(** An odd model width above 1 stops the positional-encoding constructor
    at the assignment of the cosines. *)
Example PositionalEncoding_odd_width :
  PositionalEncoding_init 3 5 0 keep_all
  = inl (RuntimeError "shape mismatch: value tensor cannot be broadcast to indexing result").
Proof.
  unfold PositionalEncoding_init, Dropout_init.
  destruct (Rlt_dec 0 0) as [C|_]; [lra|].
  destruct (Rlt_dec 1 0) as [C|_]; [lra|].
  reflexivity.
Qed.

(** With [self] bound but [contigous] left as torch has it (absent), the
    body of [forward] stores the attention weights and then stops at the
    attribute lookup. *)
Example forward_stops_at_contigous :
  exists W,
    forward (mkEnv None (Some ex_block) None) ex_input ex_input ex_input None
    = (inl (AttributeError "contigous"),
       Some (set_attention_scores ex_block W))
    /\ dim2 W = 1%nat /\ dim3 W = 1%nat.
Proof. eexists. split; [reflexivity|]. split; reflexivity. Qed.

(** * Further properties of the layers *)

(** ** More on finite sums *)

Lemma Rsum_le (n : nat) (f g : nat -> R) :
  (forall i, (i < n)%nat -> f i <= g i) -> Rsum n f <= Rsum n g.
Proof.
  induction n as [|n IH]; intros Hle; simpl; [lra|].
  assert (Rsum n f <= Rsum n g) by (apply IH; intros; apply Hle; lia).
  assert (f n <= g n) by (apply Hle; lia). lra.
Qed.

Lemma Rsum_constant (n : nat) (a : R) : Rsum n (fun _ => a) = INR n * a.
Proof.
  induction n as [|n IH]; [simpl; ring|].
  rewrite S_INR. simpl. rewrite IH. ring.
Qed.

Lemma Rsum_scal_l (n : nat) (f : nat -> R) (a : R) :
  Rsum n (fun i => a * f i) = a * Rsum n f.
Proof.
  induction n as [|n IH]; simpl; [ring|]. rewrite IH. ring.
Qed.

(** ** Attention under an arbitrary mask *)

Lemma spec_weight_congr (Lk dk dk' : nat) (Q K Q' K' : nat -> nat -> R)
      (a a' : nat -> nat -> bool) (i i' j : nat) :
  (forall c, (c < Lk)%nat ->
             spec_masked_score dk Q K a i c
             = spec_masked_score dk' Q' K' a' i' c) ->
  (j < Lk)%nat ->
  spec_weight Lk dk Q K a i j = spec_weight Lk dk' Q' K' a' i' j.
Proof.
  intros E Hj. unfold spec_weight. rewrite (E j Hj). f_equal.
  apply Rsum_ext. intros c Hc. rewrite (E c Hc). reflexivity.
Qed.

(** X1.  Whatever the mask, when dropout is absent or in evaluation mode
    every returned weight is positive and every row of weights sums to 1:
    masking moves weight between keys and never removes any. *)
Theorem X1_masked_rows_stochastic (query key value : Tensor4)
        (mask : option ZTensor4) (dropout : option Dropout) :
  attention_shapes query key value ->
  mask_fits mask (dim0 query) (dim1 query) (dim2 query) (dim2 key) ->
  (0 < dim2 key)%nat ->
  dropout_is_identity dropout ->
  exists out weights,
    attention query key value mask dropout = inr (out, weights)
    /\ forall n hh i, (n < dim0 query)%nat -> (hh < dim1 query)%nat ->
         (forall j, 0 < at4 weights n hh i j)
         /\ Rsum (dim2 key) (fun j => at4 weights n hh i j) = 1.
Proof.
  intros Hs Hm HL Hid.
  destruct (attention_returns query key value mask dropout Hs Hm)
    as (out & weights & E & _ & _ & Hw & _).
  exists out, weights. split; [exact E|].
  intros n hh i Hn Hh. split.
  - intros j. rewrite (Hw n hh i j Hn Hh), dropout_opt_identity by exact Hid.
    apply spec_weight_pos, HL.
  - rewrite (Rsum_ext _ _
               (fun j => spec_weight (dim2 key) (dim3 query)
                           (at4 query n hh) (at4 key n hh)
                           (mask_allowed mask n hh) i j)).
    + apply spec_weight_row_sum, HL.
    + intros j _. rewrite (Hw n hh i j Hn Hh).
      apply dropout_opt_identity, Hid.
Qed.

Lemma ex_attention_shapes : attention_shapes ex_query ex_key ex_value.
Proof. unfold attention_shapes; simpl; repeat split; reflexivity. Qed.

Lemma X1_masked_rows_stochastic_witness :
  exists out weights,
    attention ex_query ex_key ex_value (Some (causal_mask 2)) None
    = inr (out, weights)
    /\ Rsum 2 (fun j => at4 weights 0 0 1 j) = 1.
Proof.
  destruct (X1_masked_rows_stochastic ex_query ex_key ex_value
              (Some (causal_mask 2)) None)
    as (out & weights & E & Hrow).
  - exact ex_attention_shapes.
  - reflexivity.
  - simpl; lia.
  - exact I.
  - exists out, weights. split; [exact E|].
    apply (Hrow 0%nat 0%nat 1%nat); simpl; lia.
Defined.

(** X2.  A query whose whole mask row is zero attends uniformly: with
    dropout absent or in evaluation mode each of its [Lk] weights is
    [1 / Lk] and its output is the plain average of the values. *)
Theorem X2_fully_masked_row_uniform (query key value : Tensor4)
        (mask : option ZTensor4) (dropout : option Dropout) (n hh i : nat) :
  attention_shapes query key value ->
  mask_fits mask (dim0 query) (dim1 query) (dim2 query) (dim2 key) ->
  (0 < dim2 key)%nat ->
  dropout_is_identity dropout ->
  (n < dim0 query)%nat -> (hh < dim1 query)%nat ->
  (forall j, (j < dim2 key)%nat -> mask_allowed mask n hh i j = false) ->
  exists out weights,
    attention query key value mask dropout = inr (out, weights)
    /\ (forall j, (j < dim2 key)%nat ->
          at4 weights n hh i j = / INR (dim2 key))
    /\ (forall c,
          at4 out n hh i c
          = Rsum (dim2 key) (fun j => at4 value n hh j c) / INR (dim2 key)).
Proof.
  intros Hs Hm HL Hid Hn Hh Hrow.
  destruct (attention_returns query key value mask dropout Hs Hm)
    as (out & weights & E & _ & _ & Hw & Ho).
  exists out, weights. split; [exact E|].
  assert (HLk : INR (dim2 key) <> 0) by (apply not_0_INR; lia).
  assert (Hu : forall j, (j < dim2 key)%nat ->
                 at4 weights n hh i j = / INR (dim2 key)).
  { intros j Hj.
    rewrite (Hw n hh i j Hn Hh), dropout_opt_identity by exact Hid.
    unfold spec_weight.
    rewrite (Rsum_ext _ _ (fun _ => exp sentinel)).
    - unfold spec_masked_score. rewrite (Hrow j Hj), Rsum_constant.
      assert (Hs' := exp_pos sentinel). field. split; lra.
    - intros c Hc. unfold spec_masked_score. rewrite (Hrow c Hc).
      reflexivity. }
  split; [exact Hu|].
  intros c. rewrite (Ho n hh i c Hn Hh).
  rewrite (Rsum_ext _ _ (fun j => / INR (dim2 key) * at4 value n hh j c)).
  - rewrite Rsum_scal_l. unfold Rdiv. ring.
  - intros j Hj. rewrite (Hu j Hj). reflexivity.
Qed.

Lemma X2_fully_masked_row_uniform_witness :
  exists out weights,
    attention ex_query ex_key ex_value (Some ex_mask_none_allowed) None
    = inr (out, weights)
    /\ at4 weights 0 0 0 1 = / INR 2.
Proof.
  destruct (X2_fully_masked_row_uniform ex_query ex_key ex_value
              (Some ex_mask_none_allowed) None 0 0 0)
    as (out & weights & E & Hu & _).
  - exact ex_attention_shapes.
  - reflexivity.
  - simpl; lia.
  - exact I.
  - simpl; lia.
  - simpl; lia.
  - intros j _. reflexivity.
  - exists out, weights. split; [exact E|].
    apply (Hu 1%nat). simpl; lia.
Defined.

(** X3.  With dropout absent or in evaluation mode the output is a
    weighted average of the values: every output entry lies between any
    two bounds that enclose the corresponding entry of all the values. *)
Theorem X3_output_within_value_range (query key value : Tensor4)
        (mask : option ZTensor4) (dropout : option Dropout)
        (n hh c : nat) (lo hi : R) :
  attention_shapes query key value ->
  mask_fits mask (dim0 query) (dim1 query) (dim2 query) (dim2 key) ->
  (0 < dim2 key)%nat ->
  dropout_is_identity dropout ->
  (n < dim0 query)%nat -> (hh < dim1 query)%nat ->
  (forall j, (j < dim2 key)%nat -> lo <= at4 value n hh j c <= hi) ->
  exists out weights,
    attention query key value mask dropout = inr (out, weights)
    /\ forall i, lo <= at4 out n hh i c <= hi.
Proof.
  intros Hs Hm HL Hid Hn Hh Hv.
  destruct (attention_returns query key value mask dropout Hs Hm)
    as (out & weights & E & _ & _ & Hw & Ho).
  exists out, weights. split; [exact E|].
  intros i. rewrite (Ho n hh i c Hn Hh).
  set (w := fun j => spec_weight (dim2 key) (dim3 query) (at4 query n hh)
                       (at4 key n hh) (mask_allowed mask n hh) i j).
  assert (Hwj : forall j, at4 weights n hh i j = w j).
  { intros j. rewrite (Hw n hh i j Hn Hh). apply dropout_opt_identity, Hid. }
  assert (Hpos : forall j, 0 < w j) by (intros j; apply spec_weight_pos, HL).
  assert (Hsum : Rsum (dim2 key) w = 1) by (apply spec_weight_row_sum, HL).
  rewrite (Rsum_ext _ _ (fun j => w j * at4 value n hh j c))
    by (intros j _; rewrite Hwj; reflexivity).
  split.
  - replace lo with (Rsum (dim2 key) (fun j => w j * lo))
      by (rewrite Rsum_scal_r, Hsum; ring).
    apply Rsum_le. intros j Hj.
    apply Rmult_le_compat_l; [left; apply Hpos | apply Hv, Hj].
  - replace hi with (Rsum (dim2 key) (fun j => w j * hi))
      by (rewrite Rsum_scal_r, Hsum; ring).
    apply Rsum_le. intros j Hj.
    apply Rmult_le_compat_l; [left; apply Hpos | apply Hv, Hj].
Qed.

Lemma X3_output_within_value_range_witness :
  exists out weights,
    attention ex_query ex_key ex_value (Some (causal_mask 2)) None
    = inr (out, weights)
    /\ 0 <= at4 out 0 0 1 0 <= 1.
Proof.
  destruct (X3_output_within_value_range ex_query ex_key ex_value
              (Some (causal_mask 2)) None 0 0 0 0 1)
    as (out & weights & E & Hb).
  - exact ex_attention_shapes.
  - reflexivity.
  - simpl; lia.
  - exact I.
  - simpl; lia.
  - simpl; lia.
  - intros j Hj. simpl in Hj. simpl.
    destruct j as [|[|j]]; simpl; [lra | lra | lia].
  - exists out, weights. split; [exact E | apply Hb].
Defined.

(** ** Shape errors of attention *)

Lemma broadcast_dim_inv (a b d : nat) :
  broadcast_dim a b = inr d ->
  broadcastable a b /\ (d = a \/ d = b).
Proof.
  unfold broadcast_dim, broadcastable.
  destruct (Nat.eqb_spec a b) as [->|_]; [intros [= <-]; auto|].
  destruct (Nat.eqb_spec a 1) as [->|_]; [intros [= <-]; auto|].
  destruct (Nat.eqb_spec b 1) as [->|_]; [intros [= <-]; auto|].
  discriminate.
Qed.

Lemma broadcast_dim_err (a b : nat) (e : PyErr) :
  broadcast_dim a b = inl e -> exists msg, e = RuntimeError msg.
Proof.
  unfold broadcast_dim.
  destruct (Nat.eqb a b); [discriminate|].
  destruct (Nat.eqb a 1); [discriminate|].
  destruct (Nat.eqb b 1); [discriminate|].
  intros [= <-]. eexists; reflexivity.
Qed.

Lemma matmul_inv (a b c : Tensor4) :
  matmul a b = inr c ->
  dim3 a = dim2 b /\ dim2 c = dim2 a /\ dim3 c = dim3 b
  /\ broadcastable (dim0 a) (dim0 b) /\ broadcastable (dim1 a) (dim1 b).
Proof.
  unfold matmul.
  destruct (broadcast_dim (dim0 a) (dim0 b)) as [e|d0] eqn:E0; [discriminate|].
  destruct (broadcast_dim (dim1 a) (dim1 b)) as [e|d1] eqn:E1; [discriminate|].
  cbn [bind].
  destruct (Nat.eqb_spec (dim3 a) (dim2 b)) as [Heq|_]; [|discriminate].
  intros [= <-]. simpl.
  destruct (broadcast_dim_inv _ _ _ E0), (broadcast_dim_inv _ _ _ E1). auto.
Qed.

Lemma matmul_err (a b : Tensor4) (e : PyErr) :
  matmul a b = inl e -> exists msg, e = RuntimeError msg.
Proof.
  unfold matmul.
  destruct (broadcast_dim (dim0 a) (dim0 b)) as [e0|d0] eqn:E0.
  { intros [= <-]. exact (broadcast_dim_err _ _ _ E0). }
  destruct (broadcast_dim (dim1 a) (dim1 b)) as [e1|d1] eqn:E1.
  { intros [= <-]. exact (broadcast_dim_err _ _ _ E1). }
  cbn [bind]. destruct (Nat.eqb (dim3 a) (dim2 b)); [discriminate|].
  intros [= <-]. eexists; reflexivity.
Qed.

Lemma masked_fill_inv (t : Tensor4) (m : BTensor4) (value : R) (t' : Tensor4) :
  masked_fill_ t m value = inr t' ->
  dim0 t' = dim0 t /\ dim1 t' = dim1 t /\ dim2 t' = dim2 t /\ dim3 t' = dim3 t.
Proof.
  unfold masked_fill_.
  destruct (_ && _); [|discriminate]. intros [= <-]. simpl. auto.
Qed.

Lemma masked_fill_err (t : Tensor4) (m : BTensor4) (value : R) (e : PyErr) :
  masked_fill_ t m value = inl e -> exists msg, e = RuntimeError msg.
Proof.
  unfold masked_fill_.
  destruct (_ && _); [discriminate|]. intros [= <-]. eexists; reflexivity.
Qed.

(** X4.  Whenever [attention] returns, query and key had the same
    per-head width, there were as many values as keys, and the results
    have the shapes [(.., Lq, Lk)] for the weights and [(.., Lq, d_v)] for
    the output.  The only exception it raises is [RuntimeError], and it
    does raise it whenever the per-head widths of query and key differ or
    the numbers of keys and values differ. *)
Theorem X4_attention_shape_discipline (query key value : Tensor4)
        (mask : option ZTensor4) (dropout : option Dropout) :
  (forall out weights,
      attention query key value mask dropout = inr (out, weights) ->
      dim3 query = dim3 key /\ dim2 key = dim2 value
      /\ dim2 weights = dim2 query /\ dim3 weights = dim2 key
      /\ dim2 out = dim2 query /\ dim3 out = dim3 value)
  /\ (forall e, attention query key value mask dropout = inl e ->
                exists msg, e = RuntimeError msg)
  /\ (dim3 query <> dim3 key \/ dim2 key <> dim2 value ->
      exists msg,
        attention query key value mask dropout = inl (RuntimeError msg)).
Proof.
  assert (Hinv : forall out weights,
      attention query key value mask dropout = inr (out, weights) ->
      dim3 query = dim3 key /\ dim2 key = dim2 value
      /\ dim2 weights = dim2 query /\ dim3 weights = dim2 key
      /\ dim2 out = dim2 query /\ dim3 out = dim3 value).
  { intros out weights.
    unfold attention.
    destruct (matmul query (transpose_last key)) as [e|qk] eqn:E1;
      [discriminate|].
    cbn [bind].
    destruct (matmul_inv _ _ _ E1) as (Hk & Hq2 & Hq3 & _).
    simpl in Hk, Hq3.
    assert (Hfill : forall s,
               match mask with
               | Some m => masked_fill_ (div_scalar qk (sqrt (INR (dim3 query))))
                                        (eq_zero m) sentinel
               | None => ret (div_scalar qk (sqrt (INR (dim3 query))))
               end = inr s ->
               dim2 s = dim2 query /\ dim3 s = dim2 key).
    { intros s. destruct mask as [m|].
      - intros Hf. destruct (masked_fill_inv _ _ _ _ Hf) as (_ & _ & H2 & H3).
        simpl in H2, H3. split; congruence.
      - intros [= <-]. simpl. split; congruence. }
    destruct (match mask with Some _ => _ | None => _ end) as [e|s] eqn:E2;
      [discriminate|].
    cbn [bind]. destruct (Hfill s eq_refl) as [Hs2 Hs3].
    set (w := match dropout with
              | Some d => Dropout_call4 d (softmax_last s)
              | None => softmax_last s
              end).
    assert (Hw : dim2 w = dim2 query /\ dim3 w = dim2 key)
      by (unfold w; destruct dropout; simpl; split; assumption).
    destruct (matmul w value) as [e|o] eqn:E3; [discriminate|].
    cbn [bind]. intros [= <- <-].
    destruct (matmul_inv _ _ _ E3) as (Hv & Ho2 & Ho3 & _).
    destruct Hw as [Hw2 Hw3].
    repeat split; congruence. }
  assert (Herr : forall e, attention query key value mask dropout = inl e ->
                           exists msg, e = RuntimeError msg).
  { intros e. unfold attention.
    destruct (matmul query (transpose_last key)) as [e1|qk] eqn:E1.
    { intros [= <-]. exact (matmul_err _ _ _ E1). }
    cbn [bind].
    destruct (match mask with Some _ => _ | None => _ end) as [e2|s] eqn:E2.
    { intros [= <-]. destruct mask as [m|]; [|discriminate].
      exact (masked_fill_err _ _ _ _ E2). }
    cbn [bind].
    destruct (matmul _ value) as [e3|o] eqn:E3; [|discriminate].
    intros [= <-]. exact (matmul_err _ _ _ E3). }
  split; [exact Hinv|]. split; [exact Herr|].
  intros Hbad.
  destruct (attention query key value mask dropout) as [e|[out weights]] eqn:E.
  - destruct (Herr e eq_refl) as [msg ->]. exists msg. reflexivity.
  - destruct (Hinv out weights eq_refl) as (H1 & H2 & _).
    destruct Hbad; contradiction.
Qed.

Lemma X4_attention_shape_discipline_witness :
  exists msg,
    attention ex_query (unit4 0) ex_value None None = inl (RuntimeError msg).
Proof.
  destruct (X4_attention_shape_discipline ex_query (unit4 0) ex_value None None)
    as (_ & _ & Hbad).
  apply Hbad. right. simpl. lia.
Defined.

(** ** What a mask does and does not change *)

(** X5.  A mask without a zero entry changes nothing: weights and output
    are those of the call with [mask = None]. *)
Theorem X5_mask_without_zero_is_no_mask (query key value : Tensor4)
        (m : ZTensor4) (dropout : option Dropout) :
  attention_shapes query key value ->
  mask_fits (Some m) (dim0 query) (dim1 query) (dim2 query) (dim2 key) ->
  (forall n hh i j, zat4 m n hh i j <> 0%Z) ->
  exists out weights out' weights',
    attention query key value (Some m) dropout = inr (out, weights)
    /\ attention query key value None dropout = inr (out', weights')
    /\ forall n hh i, (n < dim0 query)%nat -> (hh < dim1 query)%nat ->
         (forall j, (j < dim2 key)%nat ->
                    at4 weights n hh i j = at4 weights' n hh i j)
         /\ (forall c, at4 out n hh i c = at4 out' n hh i c).
Proof.
  intros Hs Hm Hnz.
  destruct (attention_returns query key value (Some m) dropout Hs Hm)
    as (out & weights & E & _ & _ & Hw & Ho).
  destruct (attention_returns query key value None dropout Hs I)
    as (out' & weights' & E' & _ & _ & Hw' & Ho').
  exists out, weights, out', weights'.
  split; [exact E|]. split; [exact E'|].
  intros n hh i Hn Hh.
  assert (Hall : forall i' c, mask_allowed (Some m) n hh i' c
                              = mask_allowed None n hh i' c).
  { intros i' c. unfold mask_allowed.
    destruct (Z.eqb_spec (zat4 m (bidx (zdim0 m) n) (bidx (zdim1 m) hh)
                            (bidx (zdim2 m) i') (bidx (zdim3 m) c)) 0)
      as [Hz|_]; [|reflexivity].
    exfalso. exact (Hnz _ _ _ _ Hz). }
  assert (Hweights : forall j, (j < dim2 key)%nat ->
                       at4 weights n hh i j = at4 weights' n hh i j).
  { intros j Hj. rewrite (Hw n hh i j Hn Hh), (Hw' n hh i j Hn Hh). f_equal.
    apply spec_weight_ext; [|exact Hj]. intros c _. apply Hall. }
  split; [exact Hweights|].
  intros c. rewrite (Ho n hh i c Hn Hh), (Ho' n hh i c Hn Hh).
  apply Rsum_ext. intros j Hj. rewrite (Hweights j Hj). reflexivity.
Qed.

Lemma X5_mask_without_zero_is_no_mask_witness :
  exists out weights out' weights',
    attention ex_query ex_key ex_value (Some ex_mask_all_allowed) None
    = inr (out, weights)
    /\ attention ex_query ex_key ex_value None None = inr (out', weights')
    /\ at4 weights 0 0 0 1 = at4 weights' 0 0 0 1.
Proof.
  destruct (X5_mask_without_zero_is_no_mask ex_query ex_key ex_value
              ex_mask_all_allowed None)
    as (out & weights & out' & weights' & E & E' & Hsame).
  - exact ex_attention_shapes.
  - reflexivity.
  - intros n hh i j. simpl. lia.
  - exists out, weights, out', weights'.
    split; [exact E|]. split; [exact E'|].
    destruct (Hsame 0%nat 0%nat 0%nat) as [Hw _]; simpl; try lia.
    apply Hw. simpl; lia.
Defined.

(** X6.  Under the causal mask the weights of position [i] in a head are
    determined by that head's query at [i] and keys at positions [j <= i]:
    two inputs that agree there get the same row of weights, whatever
    their later keys, their other queries, their values and their other
    heads. *)
Theorem X6_causal_weights_ignore_later_keys (L : nat)
        (query key value query' key' value' : Tensor4)
        (dropout : option Dropout) (n hh i : nat) :
  attention_shapes query key value ->
  attention_shapes query' key' value' ->
  dim2 query = L -> dim2 key = L -> dim2 query' = L -> dim2 key' = L ->
  dim3 query' = dim3 query ->
  (n < dim0 query)%nat -> (hh < dim1 query)%nat ->
  (n < dim0 query')%nat -> (hh < dim1 query')%nat ->
  (i < L)%nat ->
  (forall c, (c < dim3 query)%nat ->
             at4 query' n hh i c = at4 query n hh i c) ->
  (forall j c, (j <= i)%nat -> (c < dim3 query)%nat ->
               at4 key' n hh j c = at4 key n hh j c) ->
  exists out weights out' weights',
    attention query key value (Some (causal_mask L)) dropout
    = inr (out, weights)
    /\ attention query' key' value' (Some (causal_mask L)) dropout
       = inr (out', weights')
    /\ forall j, (j < L)%nat ->
         at4 weights' n hh i j = at4 weights n hh i j.
Proof.
  intros Hs Hs' Hq Hk Hq' Hk' Hdk Hn Hh Hn' Hh' Hi HQ HK.
  destruct (attention_returns query key value (Some (causal_mask L)) dropout Hs)
    as (out & weights & E & _ & _ & Hw & _).
  { rewrite Hq, Hk. apply causal_mask_fits. }
  destruct (attention_returns query' key' value' (Some (causal_mask L))
              dropout Hs')
    as (out' & weights' & E' & _ & _ & Hw' & _).
  { rewrite Hq', Hk'. apply causal_mask_fits. }
  exists out, weights, out', weights'.
  split; [exact E|]. split; [exact E'|].
  intros j Hj.
  rewrite (Hw n hh i j Hn Hh), (Hw' n hh i j Hn' Hh'), Hk, Hk', Hdk.
  f_equal. apply spec_weight_congr; [|exact Hj].
  intros c Hc. unfold spec_masked_score.
  rewrite !causal_mask_allowed by assumption.
  destruct (Nat.leb_spec c i) as [Hle|_]; [|reflexivity].
  unfold spec_score. f_equal.
  apply Rsum_ext. intros f Hf.
  rewrite (HQ f Hf), (HK c f Hle Hf). reflexivity.
Qed.

Lemma X6_causal_weights_ignore_later_keys_witness :
  exists out weights out' weights',
    attention ex_query ex_key ex_value (Some (causal_mask 2)) None
    = inr (out, weights)
    /\ attention ex_query
         (mkT4 1 1 2 1 (fun _ _ j _ => if Nat.eqb j 0 then -3e4 else 7))
         ex_value (Some (causal_mask 2)) None
       = inr (out', weights')
    /\ at4 weights' 0 0 0 1 = at4 weights 0 0 0 1.
Proof.
  destruct (X6_causal_weights_ignore_later_keys 2
              ex_query ex_key ex_value
              ex_query
              (mkT4 1 1 2 1 (fun _ _ j _ => if Nat.eqb j 0 then -3e4 else 7))
              ex_value None 0 0 0)
    as (out & weights & out' & weights' & E & E' & Hsame);
    try reflexivity; try (simpl; lia).
  - exact ex_attention_shapes.
  - unfold attention_shapes; simpl; repeat split; reflexivity.
  - intros j c Hj _. simpl. replace j with 0%nat by lia. reflexivity.
  - exists out, weights, out', weights'.
    split; [exact E|]. split; [exact E'|].
    apply Hsame. lia.
Defined.

(** ** More on layer normalisation *)

Lemma mean_row_ext (n : nat) (f g : nat -> R) :
  (forall c, (c < n)%nat -> f c = g c) -> mean_row n f = mean_row n g.
Proof. intros E. unfold mean_row. rewrite (Rsum_ext n f g E). reflexivity. Qed.

Lemma std_row_ext (n : nat) (f g : nat -> R) :
  (forall c, (c < n)%nat -> f c = g c) -> std_row n f = std_row n g.
Proof.
  intros E. unfold std_row. rewrite (mean_row_ext n f g E).
  rewrite (Rsum_ext n (fun c => (f c - mean_row n g) ^ 2)
             (fun c => (g c - mean_row n g) ^ 2));
    [reflexivity|].
  intros c Hc. rewrite (E c Hc). reflexivity.
Qed.

Lemma mean_row_affine (n : nat) (y : nat -> R) (a b : R) :
  (0 < n)%nat ->
  mean_row n (fun c => a * y c + b) = a * mean_row n y + b.
Proof.
  intros Hn. unfold mean_row.
  assert (INR n <> 0) by (apply not_0_INR; lia).
  assert (E : Rsum n (fun c => a * y c + b) = a * Rsum n y + INR n * b).
  { clear. induction n as [|n IH]; [simpl; ring|].
    rewrite S_INR. simpl. rewrite IH. ring. }
  rewrite E. field. assumption.
Qed.

Lemma std_row_affine (n : nat) (y : nat -> R) (a b : R) :
  (0 < n)%nat ->
  std_row n (fun c => a * y c + b) = Rabs a * std_row n y.
Proof.
  intros Hn. unfold std_row. rewrite mean_row_affine by exact Hn.
  rewrite (Rsum_ext n _ (fun c => a ^ 2 * (y c - mean_row n y) ^ 2))
    by (intros c _; ring).
  rewrite Rsum_scal_l.
  replace (a ^ 2 * Rsum n (fun c => (y c - mean_row n y) ^ 2) / INR (n - 1))
    with (a ^ 2 * (Rsum n (fun c => (y c - mean_row n y) ^ 2) / INR (n - 1)))
    by (unfold Rdiv; ring).
  rewrite sqrt_mult_alt by apply pow2_ge_0.
  rewrite <- Rsqr_pow2, sqrt_Rsqr_abs. reflexivity.
Qed.

(** X7.  Layer normalisation ignores a constant added to a feature
    vector: [norm(x + a) = norm(x)] entry by entry, for feature vectors of
    width at least 2. *)
Theorem X7_layer_norm_shift_invariant (self : LayerNormalization)
        (x : Tensor3) (a : R) (n i c : nat) :
  (2 <= len2 x)%nat ->
  at3 (LayerNormalization_forward self (shift3 x a)) n i c
  = at3 (LayerNormalization_forward self x) n i c.
Proof.
  intros Hw. unfold LayerNormalization_forward, mean_last, std_last, shift3.
  cbn [at3 len0 len1 len2].
  assert (Hm : mean_row (len2 x) (fun c0 => at3 x n i c0 + a)
               = mean_row (len2 x) (at3 x n i) + a).
  { rewrite (mean_row_ext _ _ (fun c0 => 1 * at3 x n i c0 + a))
      by (intros; ring).
    rewrite mean_row_affine by lia. ring. }
  assert (Hsd : std_row (len2 x) (fun c0 => at3 x n i c0 + a)
                = std_row (len2 x) (at3 x n i)).
  { rewrite (std_row_ext _ _ (fun c0 => 1 * at3 x n i c0 + a))
      by (intros; ring).
    rewrite std_row_affine by lia. rewrite Rabs_R1. ring. }
  rewrite Hm, Hsd. unfold Rdiv. ring.
Qed.

Lemma X7_layer_norm_shift_invariant_witness :
  at3 (LayerNormalization_forward (LayerNormalization_init default_eps)
         (shift3 ex_vector 5)) 0 0 1
  = at3 (LayerNormalization_forward (LayerNormalization_init default_eps)
           ex_vector) 0 0 1.
Proof.
  apply (X7_layer_norm_shift_invariant (LayerNormalization_init default_eps)
           ex_vector 5 0 0 1).
  simpl. lia.
Defined.

(** X8.  For feature vectors of width at least 2 and [eps > 0], every
    feature vector of the output has mean exactly [bias] and standard
    deviation [|alpha| * s / (s + eps)], at most [|alpha|], where [s] is
    the standard deviation of the input vector; a constant feature vector
    is mapped to [bias] in every entry. *)
Theorem X8_layer_norm_output_statistics (self : LayerNormalization)
        (x : Tensor3) (n i : nat) :
  (2 <= len2 x)%nat -> 0 < eps self ->
  let out := LayerNormalization_forward self x in
  let s := std_last x n i in
  mean_last out n i = bias self
  /\ std_last out n i = Rabs (alpha self) * (s / (s + eps self))
  /\ std_last out n i <= Rabs (alpha self)
  /\ (forall a, (forall c, (c < len2 x)%nat -> at3 x n i c = a) ->
                forall c, (c < len2 x)%nat -> at3 out n i c = bias self).
Proof.
  intros Hw He out s.
  assert (Hs : 0 <= s) by apply std_row_nonneg.
  set (y := fun c => (at3 x n i c - mean_last x n i) / (s + eps self)).
  assert (Hout : forall c, at3 out n i c = alpha self * y c + bias self).
  { intros c. unfold out, LayerNormalization_forward, y, s; simpl.
    unfold Rdiv. ring. }
  assert (Hmy : mean_row (len2 x) y = 0).
  { apply (mean_row_centered (len2 x) (at3 x n i)). lia. }
  assert (Hsy : std_row (len2 x) y = s / (s + eps self)).
  { apply (std_row_scaled (len2 x) (at3 x n i)); [lia|lra]. }
  assert (Hmean : mean_last out n i = bias self).
  { unfold mean_last. change (len2 out) with (len2 x).
    rewrite (mean_row_ext _ _ (fun c => alpha self * y c + bias self))
      by (intros; apply Hout).
    rewrite mean_row_affine by lia. rewrite Hmy. ring. }
  assert (Hstd : std_last out n i = Rabs (alpha self) * (s / (s + eps self))).
  { unfold std_last. change (len2 out) with (len2 x).
    rewrite (std_row_ext _ _ (fun c => alpha self * y c + bias self))
      by (intros; apply Hout).
    rewrite std_row_affine by lia. rewrite Hsy. reflexivity. }
  split; [exact Hmean|]. split; [exact Hstd|]. split.
  - rewrite Hstd.
    assert (Hr : s / (s + eps self) <= 1).
    { apply Rmult_le_reg_r with (s + eps self); [lra|].
      unfold Rdiv. rewrite Rmult_assoc, Rinv_l by lra. lra. }
    assert (Ha := Rabs_pos (alpha self)).
    replace (Rabs (alpha self)) with (Rabs (alpha self) * 1) at 2 by ring.
    apply Rmult_le_compat_l; assumption.
  - intros a Hconst c Hc.
    rewrite Hout. unfold y.
    assert (Hm : mean_last x n i = a).
    { unfold mean_last.
      rewrite (mean_row_ext _ _ (fun _ => a)) by exact Hconst.
      unfold mean_row. rewrite Rsum_constant.
      field. apply not_0_INR. lia. }
    rewrite Hm, (Hconst c Hc). unfold Rdiv. ring.
Qed.

Lemma X8_layer_norm_output_statistics_witness :
  mean_last (LayerNormalization_forward (LayerNormalization_init default_eps)
               ex_vector) 0 0
  = bias (LayerNormalization_init default_eps).
Proof.
  apply (X8_layer_norm_output_statistics
           (LayerNormalization_init default_eps) ex_vector 0 0).
  - simpl; lia.
  - unfold LayerNormalization_init, default_eps; simpl. lra.
Defined.

(** ** Residual connection: shapes *)

Lemma broadcast_dim_ok (a b : nat) :
  broadcastable a b -> exists d, broadcast_dim a b = inr d.
Proof.
  unfold broadcastable, broadcast_dim.
  destruct (Nat.eqb_spec a b); [eexists; reflexivity|].
  destruct (Nat.eqb_spec a 1); [eexists; reflexivity|].
  destruct (Nat.eqb_spec b 1); [eexists; reflexivity|].
  intros [?|[?|?]]; contradiction.
Qed.

Lemma add3_returns_iff (a b : Tensor3) :
  (exists out, add3 a b = inr out)
  <-> broadcastable (len0 a) (len0 b) /\ broadcastable (len1 a) (len1 b)
      /\ broadcastable (len2 a) (len2 b).
Proof.
  unfold add3. split.
  - intros [out E].
    destruct (broadcast_dim (len0 a) (len0 b)) as [e|d0] eqn:E0;
      [discriminate|].
    destruct (broadcast_dim (len1 a) (len1 b)) as [e|d1] eqn:E1;
      [discriminate|].
    destruct (broadcast_dim (len2 a) (len2 b)) as [e|d2] eqn:E2;
      [discriminate|].
    destruct (broadcast_dim_inv _ _ _ E0), (broadcast_dim_inv _ _ _ E1),
      (broadcast_dim_inv _ _ _ E2).
    auto.
  - intros (H0 & H1 & H2).
    destruct (broadcast_dim_ok _ _ H0) as [d0 ->].
    destruct (broadcast_dim_ok _ _ H1) as [d1 ->].
    destruct (broadcast_dim_ok _ _ H2) as [d2 ->].
    eexists. reflexivity.
Qed.

Lemma add3_err (a b : Tensor3) (e : PyErr) :
  add3 a b = inl e -> exists msg, e = RuntimeError msg.
Proof.
  unfold add3.
  destruct (broadcast_dim (len0 a) (len0 b)) as [e0|d0] eqn:E0.
  { intros [= <-]. exact (broadcast_dim_err _ _ _ E0). }
  destruct (broadcast_dim (len1 a) (len1 b)) as [e1|d1] eqn:E1.
  { intros [= <-]. exact (broadcast_dim_err _ _ _ E1). }
  destruct (broadcast_dim (len2 a) (len2 b)) as [e2|d2] eqn:E2.
  { intros [= <-]. exact (broadcast_dim_err _ _ _ E2). }
  discriminate.
Qed.

(** X9.  When the sublayer returns a tensor [y], the residual connection
    returns exactly when the shape of [y] broadcasts with the shape of the
    input, dimension by dimension; otherwise the addition raises
    [RuntimeError].  A sublayer result of shape [(B, L, 1)] is thus
    accepted and added to every feature. *)
Theorem X9_residual_shape_discipline (self : ResidualConnection)
        (x : Tensor3) (sublayer : Tensor3 -> Py Tensor3) (y : Tensor3) :
  sublayer (LayerNormalization_forward (norm self) x) = inr y ->
  ((exists out, ResidualConnection_forward self x sublayer = inr out)
   <-> broadcastable (len0 x) (len0 y) /\ broadcastable (len1 x) (len1 y)
       /\ broadcastable (len2 x) (len2 y))
  /\ (forall e, ResidualConnection_forward self x sublayer = inl e ->
                exists msg, e = RuntimeError msg)
  /\ (len0 y = len0 x -> len1 y = len1 x -> len2 y = 1%nat ->
      exists out,
        ResidualConnection_forward self x sublayer = inr out
        /\ forall n i c,
            (n < len0 x)%nat -> (i < len1 x)%nat -> (c < len2 x)%nat ->
            at3 out n i c
            = at3 x n i c
              + dropout_entry (rc_dropout self) [n; i; 0]%nat (at3 y n i 0)).
Proof.
  intros Hy. unfold ResidualConnection_forward. rewrite Hy. cbn [bind].
  split; [|split].
  - exact (add3_returns_iff x (Dropout_call3 (rc_dropout self) y)).
  - intros e. apply add3_err.
  - intros H0 H1 H2. unfold add3. cbn [Dropout_call3 len0 len1 len2 at3].
    rewrite H0, H1, H2, !broadcast_dim_same. cbn [bind].
    assert (E : exists d, broadcast_dim (len2 x) 1 = inr d
                          /\ (d = len2 x)).
    { unfold broadcast_dim.
      destruct (Nat.eqb_spec (len2 x) 1) as [->|Hne];
        [eexists; split; reflexivity|].
      rewrite Nat.eqb_refl. eexists; split; reflexivity. }
    destruct E as (d & -> & ->). cbn [bind ret].
    eexists. split; [reflexivity|].
    intros n i c Hn Hi Hc. cbn [at3].
    rewrite (bidx_lt _ n Hn), (bidx_lt _ i Hi), (bidx_lt _ c Hc).
    reflexivity.
Qed.

Lemma X9_residual_shape_discipline_witness :
  exists msg,
    ResidualConnection_forward
      (mkResidualConnection ex_eval_dropout
         (LayerNormalization_init default_eps))
      ex_vector (fun _ => ret ex_input10)
    = inl (RuntimeError msg).
Proof.
  destruct (X9_residual_shape_discipline
              (mkResidualConnection ex_eval_dropout
                 (LayerNormalization_init default_eps))
              ex_vector (fun _ => ret ex_input10) ex_input10 eq_refl)
    as (_ & Herr & _).
  destruct (Herr _ eq_refl) as [msg Hmsg].
  exists msg. rewrite <- Hmsg. reflexivity.
Defined.

(** ** Feed-forward block *)

Lemma Linear_init_inv (i o : Z) (w0 : nat -> nat -> R) (b0 : nat -> R)
      (l : Linear) :
  Linear_init i o w0 b0 = inr l ->
  (0 <= i)%Z /\ (0 <= o)%Z
  /\ in_features l = Z.to_nat i /\ out_features l = Z.to_nat o.
Proof.
  unfold Linear_init.
  destruct (Z.ltb_spec i 0); [discriminate|].
  destruct (Z.ltb_spec o 0); [discriminate|].
  intros [= <-]. simpl. auto.
Qed.

Lemma Linear_init_ok (i o : Z) (w0 : nat -> nat -> R) (b0 : nat -> R) :
  (0 <= i)%Z -> (0 <= o)%Z ->
  Linear_init i o w0 b0 = inr (mkLinear (Z.to_nat i) (Z.to_nat o) w0 b0).
Proof.
  intros Hi Ho. unfold Linear_init.
  replace (i <? 0)%Z with false by (symmetry; apply Z.ltb_ge; exact Hi).
  replace (o <? 0)%Z with false by (symmetry; apply Z.ltb_ge; exact Ho).
  reflexivity.
Qed.

Lemma Dropout_init_inv (prob : R) (dr : list nat -> bool) (d : Dropout) :
  Dropout_init prob dr = inr d ->
  0 <= prob <= 1 /\ d = mkDropout prob true dr.
Proof.
  unfold Dropout_init.
  destruct (Rlt_dec prob 0); [discriminate|].
  destruct (Rlt_dec 1 prob); [discriminate|].
  intros [= <-]. split; [lra | reflexivity].
Qed.

Lemma Dropout_init_ok (prob : R) (dr : list nat -> bool) :
  0 <= prob <= 1 -> Dropout_init prob dr = inr (mkDropout prob true dr).
Proof.
  intros [H0 H1]. unfold Dropout_init.
  destruct (Rlt_dec prob 0); [lra|].
  destruct (Rlt_dec 1 prob); [lra|]. reflexivity.
Qed.

Lemma Linear_call_ok (l : Linear) (x : Tensor3) :
  len2 x = in_features l ->
  exists out,
    Linear_call l x = inr out
    /\ len0 out = len0 x /\ len1 out = len1 x /\ len2 out = out_features l
    /\ forall n i o,
        at3 out n i o
        = Rsum (in_features l) (fun c => at3 x n i c * weight l o c)
          + lbias l o.
Proof.
  intros H. unfold Linear_call. rewrite H, Nat.eqb_refl.
  eexists. split; [reflexivity|]. simpl. repeat split.
Qed.

Lemma Linear_call_mismatch (l : Linear) (x : Tensor3) :
  len2 x <> in_features l ->
  Linear_call l x
  = inl (RuntimeError "mat1 and mat2 shapes cannot be multiplied").
Proof.
  intros H. unfold Linear_call.
  destruct (Nat.eqb_spec (len2 x) (in_features l)); [contradiction|].
  reflexivity.
Qed.

(** X10.  The constructor of the feed-forward block succeeds exactly for a
    non-negative width, a non-negative inner width and a dropout
    probability in [[0, 1]].  The block it builds is in training mode,
    maps every input of that width to an output of the same shape, and
    raises [RuntimeError] on an input of any other width. *)
Theorem X10_feed_forward_shapes (width d_ff : Z) (prob : R)
        (rng : InitValues) :
  ((exists m, FeedForwardBlock_init width d_ff prob rng = inr m)
   <-> (0 <= width)%Z /\ (0 <= d_ff)%Z /\ 0 <= prob <= 1)
  /\ forall m, FeedForwardBlock_init width d_ff prob rng = inr m ->
       training (ff_dropout m) = true
       /\ forall x,
           (len2 x = Z.to_nat width ->
            exists out,
              FeedForwardBlock_forward m x = inr out
              /\ len0 out = len0 x /\ len1 out = len1 x
              /\ len2 out = len2 x)
           /\ (len2 x <> Z.to_nat width ->
               exists msg,
                 FeedForwardBlock_forward m x = inl (RuntimeError msg)).
Proof.
  assert (Hinv : forall m, FeedForwardBlock_init width d_ff prob rng = inr m ->
            (0 <= width)%Z /\ (0 <= d_ff)%Z /\ 0 <= prob <= 1
            /\ m = mkFeedForwardBlock
                     (mkLinear (Z.to_nat width) (Z.to_nat d_ff)
                        (init_weight rng 0) (init_bias rng 0))
                     (mkDropout prob true (init_draw rng))
                     (mkLinear (Z.to_nat d_ff) (Z.to_nat width)
                        (init_weight rng 1) (init_bias rng 1))).
  { intros m. unfold FeedForwardBlock_init.
    destruct (Linear_init width d_ff _ _) as [e|l1] eqn:E1; [discriminate|].
    cbn [bind].
    destruct (Dropout_init prob _) as [e|d] eqn:E2; [discriminate|].
    cbn [bind].
    destruct (Linear_init d_ff width _ _) as [e|l2] eqn:E3; [discriminate|].
    cbn [bind]. intros [= <-].
    destruct (Linear_init_inv _ _ _ _ _ E1) as (Hw & Hf & _).
    destruct (Dropout_init_inv _ _ _ E2) as (Hp & ->).
    rewrite (Linear_init_ok _ _ _ _ Hw Hf) in E1.
    rewrite (Linear_init_ok _ _ _ _ Hf Hw) in E3.
    injection E1 as <-. injection E3 as <-. auto. }
  split.
  - split.
    + intros [m Hm]. destruct (Hinv m Hm) as (Hw & Hf & Hp & _). auto.
    + intros (Hw & Hf & Hp). unfold FeedForwardBlock_init.
      rewrite (Linear_init_ok _ _ _ _ Hw Hf), (Linear_init_ok _ _ _ _ Hf Hw),
        (Dropout_init_ok _ _ Hp).
      eexists. reflexivity.
  - intros m Hm. destruct (Hinv m Hm) as (Hw & Hf & Hp & ->).
    split; [reflexivity|].
    intros x. unfold FeedForwardBlock_forward.
    cbn [linear_1 linear_2 ff_dropout]. split.
    + intros Hx. unfold Linear_call at 1. cbn [in_features out_features].
      rewrite Hx, Nat.eqb_refl. cbn [bind ret].
      unfold Linear_call. cbn [in_features out_features len0 len1 len2
                               Dropout_call3 relu].
      rewrite Nat.eqb_refl. cbn [bind ret].
      eexists. split; [reflexivity|]. cbn [len0 len1 len2]. auto.
    + intros Hx. rewrite Linear_call_mismatch by exact Hx.
      eexists. reflexivity.
Qed.

Lemma X10_feed_forward_shapes_witness :
  exists m, FeedForwardBlock_init 2 3 (1 / 10) ex_init = inr m.
Proof.
  destruct (X10_feed_forward_shapes 2 3 (1 / 10) ex_init) as [[_ Hok] _].
  apply Hok. repeat split; try lia; lra.
Defined.

(** X11.  In evaluation mode the feed-forward block acts on each position
    separately and identically: two positions (of the same or of different
    inputs) holding the same feature vector get the same output vector. *)
Theorem X11_feed_forward_position_wise (self : FeedForwardBlock)
        (x x' out out' : Tensor3) (n i n' i' : nat) :
  training (ff_dropout self) = false ->
  FeedForwardBlock_forward self x = inr out ->
  FeedForwardBlock_forward self x' = inr out' ->
  (forall c, (c < in_features (linear_1 self))%nat ->
             at3 x n i c = at3 x' n' i' c) ->
  forall o, at3 out n i o = at3 out' n' i' o.
Proof.
  intros Heval Hout Hout' Hrow o.
  unfold FeedForwardBlock_forward, Linear_call in Hout, Hout'.
  destruct (Nat.eqb (len2 x) (in_features (linear_1 self)));
    [|discriminate].
  destruct (Nat.eqb (len2 x') (in_features (linear_1 self)));
    [|discriminate].
  cbn [bind ret len0 len1 len2 relu Dropout_call3] in Hout, Hout'.
  destruct (Nat.eqb (out_features (linear_1 self))
                    (in_features (linear_2 self))); [|discriminate].
  cbn [bind ret] in Hout, Hout'.
  injection Hout as <-. injection Hout' as <-.
  cbn [at3]. f_equal.
  apply Rsum_ext. intros c _. f_equal.
  unfold dropout_entry. rewrite Heval. f_equal. f_equal.
  apply Rsum_ext. intros f Hf. rewrite (Hrow f Hf). reflexivity.
Qed.

Lemma X11_feed_forward_position_wise_witness :
  exists out,
    FeedForwardBlock_forward ex_ffb (mkT3 1 2 2 (fun _ _ c => INR c))
    = inr out
    /\ at3 out 0 0 1 = at3 out 0 1 1.
Proof.
  eexists. split; [reflexivity|].
  eapply (X11_feed_forward_position_wise ex_ffb
            (mkT3 1 2 2 (fun _ _ c => INR c))
            (mkT3 1 2 2 (fun _ _ c => INR c)) _ _ 0 0 0 1).
  - reflexivity.
  - reflexivity.
  - reflexivity.
  - intros c _. reflexivity.
Defined.

(** ** Encoder *)

Lemma run_layers_app (l1 l2 : list Layer) (x : Tensor3)
      (mask : option ZTensor4) :
  run_layers (l1 ++ l2) x mask
  = (y <- run_layers l1 x mask ;; run_layers l2 y mask).
Proof.
  revert x. induction l1 as [|layer l1 IH]; intros x; simpl; [reflexivity|].
  destruct (layer x mask) as [e|y]; simpl; [reflexivity | apply IH].
Qed.

(** X12.  The encoder runs its layers in list order and normalises at the
    end: a stack [l1 ++ l2] is [l1] followed by the encoder over [l2]; the
    empty stack is the final normalisation alone; and the first layer that
    raises ends the pass with its exception, the layers after it and the
    normalisation never running. *)
Theorem X12_encoder_layers_in_order (l1 l2 : list Layer) (x : Tensor3)
        (mask : option ZTensor4) :
  Encoder_forward (Encoder_init (l1 ++ l2)) x mask
  = (y <- run_layers l1 x mask ;; Encoder_forward (Encoder_init l2) y mask)
  /\ Encoder_forward (Encoder_init []) x mask
     = inr (LayerNormalization_forward (LayerNormalization_init default_eps) x)
  /\ (forall layer y e,
         run_layers l1 x mask = inr y -> layer y mask = inl e ->
         Encoder_forward (Encoder_init (l1 ++ layer :: l2)) x mask = inl e).
Proof.
  split; [|split].
  - unfold Encoder_forward, Encoder_init. cbn [layers enc_norm].
    rewrite run_layers_app.
    destruct (run_layers l1 x mask) as [e|y]; reflexivity.
  - reflexivity.
  - intros layer y e Hy He.
    unfold Encoder_forward, Encoder_init. cbn [layers enc_norm].
    rewrite run_layers_app, Hy. cbn [bind run_layers]. rewrite He.
    reflexivity.
Qed.

Lemma X12_encoder_layers_in_order_witness :
  Encoder_forward
    (Encoder_init ([fun t _ => ret t]
                   ++ (fun _ _ => raise ZeroDivisionError)
                   :: [fun t _ => ret t]))
    ex_vector None
  = inl ZeroDivisionError.
Proof.
  destruct (X12_encoder_layers_in_order [fun t _ => ret t]
              [fun t _ => ret t] ex_vector None) as (_ & _ & Herr).
  apply (Herr (fun _ _ => raise ZeroDivisionError) ex_vector).
  - reflexivity.
  - reflexivity.
Defined.

Lemma layer_norm_row_stats (self : LayerNormalization) (x : Tensor3)
      (n i : nat) :
  (2 <= len2 x)%nat -> 0 < eps self ->
  mean_last (LayerNormalization_forward self x) n i = bias self
  /\ std_last (LayerNormalization_forward self x) n i
     = Rabs (alpha self)
       * (std_last x n i / (std_last x n i + eps self)).
Proof.
  intros Hw He.
  assert (Hs : 0 <= std_last x n i) by apply std_row_nonneg.
  set (y := fun c => (at3 x n i c - mean_last x n i)
                     / (std_last x n i + eps self)).
  assert (Hout : forall c, at3 (LayerNormalization_forward self x) n i c
                           = alpha self * y c + bias self).
  { intros c. unfold LayerNormalization_forward, y; simpl.
    unfold Rdiv. ring. }
  unfold mean_last at 1, std_last at 1.
  change (len2 (LayerNormalization_forward self x)) with (len2 x).
  rewrite (mean_row_ext _ _ (fun c => alpha self * y c + bias self))
    by (intros; apply Hout).
  rewrite (std_row_ext _ _ (fun c => alpha self * y c + bias self))
    by (intros; apply Hout).
  rewrite mean_row_affine, std_row_affine by lia.
  unfold y.
  rewrite (mean_row_centered (len2 x) (at3 x n i)) by lia.
  rewrite (std_row_scaled (len2 x) (at3 x n i)) by (lia || lra).
  split; [ring | reflexivity].
Qed.

(** X13.  Whatever its layers, what the encoder returns is normalised:
    every feature vector of width at least 2 of the result has mean
    exactly 0 and a standard deviation below 1. *)
Theorem X13_encoder_output_normalised (ls : list Layer) (x : Tensor3)
        (mask : option ZTensor4) (out : Tensor3) (n i : nat) :
  Encoder_forward (Encoder_init ls) x mask = inr out ->
  (2 <= len2 out)%nat ->
  mean_last out n i = 0 /\ 0 <= std_last out n i < 1.
Proof.
  unfold Encoder_forward, Encoder_init. cbn [layers enc_norm].
  destruct (run_layers ls x mask) as [e|y]; [discriminate|].
  cbn [bind ret]. intros [= <-] Hw.
  change (len2 (LayerNormalization_forward
                  (LayerNormalization_init default_eps) y))
    with (len2 y) in Hw.
  assert (He : 0 < eps (LayerNormalization_init default_eps))
    by (unfold LayerNormalization_init, default_eps; simpl; lra).
  destruct (layer_norm_row_stats (LayerNormalization_init default_eps)
              y n i Hw He) as [Hm Hsd].
  split; [exact Hm|]. split; [apply std_row_nonneg|].
  rewrite Hsd. cbn [alpha LayerNormalization_init]. rewrite Rabs_R1.
  assert (Hs : 0 <= std_last y n i) by apply std_row_nonneg.
  rewrite Rmult_1_l.
  apply Rmult_lt_reg_r
    with (std_last y n i + eps (LayerNormalization_init default_eps));
    [lra|].
  unfold Rdiv. rewrite Rmult_assoc, Rinv_l by lra. lra.
Qed.

Lemma X13_encoder_output_normalised_witness :
  exists out,
    Encoder_forward (Encoder_init [fun t _ => ret t]) ex_vector None = inr out
    /\ mean_last out 0 0 = 0.
Proof.
  eexists. split; [reflexivity|].
  eapply (X13_encoder_output_normalised [fun t _ => ret t] ex_vector None).
  - reflexivity.
  - simpl. lia.
Defined.

(** ** Encoder block *)

(** Calling with four arguments is the call [block(q, k, v, mask)]. *)
Lemma call_block_four (env : Env) (block : MultiHeadAttentionBlock)
      (q k v : Tensor3) (mask : option ZTensor4) :
  call_block env block [ATensor q; ATensor k; ATensor v; AMask mask]
  = Module_call env block q k v mask.
Proof. reflexivity. Qed.

(** A call of the block never reaches the assignment of the weights:
    the object bound to [self] is left as it was, which is why
    [EncoderBlock_forward] can drop the state. *)
Lemma call_block_state (env : Env) (block : MultiHeadAttentionBlock)
      (args : list Arg) :
  snd (call_block env block args) = g_self env.
Proof.
  unfold call_block.
  destruct args as [|a1 [|a2 [|a3 [|a4 rest]]]]; reflexivity.
Qed.

(** X14.  [EncoderBlock.forward] raises on every input and never reaches
    the feed-forward sublayer: in globals that do not bind [dropout] the
    first sublayer stops at that name with [NameError]; if [dropout] is
    bound, the attention block receives six positional arguments and the
    call raises [TypeError].  An encoder with at least one such block
    raises the same exception. *)
Theorem X14_encoder_block_always_raises (env : Env) (g_dropout : option Arg)
        (self : EncoderBlock) (blocks : list EncoderBlock) (x : Tensor3)
        (mask : option ZTensor4) :
  let e := match g_dropout with
           | None => NameError "dropout"
           | Some _ =>
               TypeError "forward() takes 4 positional arguments but 6 were given"
           end in
  EncoderBlock_forward env g_dropout self x mask = inl e
  /\ Encoder_forward
       (Encoder_init (map (EncoderBlock_forward env g_dropout)
                          (self :: blocks))) x mask
     = inl e.
Proof.
  intros e.
  assert (H : EncoderBlock_forward env g_dropout self x mask = inl e).
  { unfold EncoderBlock_forward, ResidualConnection_forward, e.
    destruct g_dropout as [d|]; reflexivity. }
  split; [exact H|].
  unfold Encoder_forward, Encoder_init.
  cbn [layers enc_norm map run_layers]. rewrite H. reflexivity.
Qed.

(** ** Multi-head attention: constructor and head split *)

(** X15.  The constructor fails in a fixed order: an unbound [d_mode]
    gives [NameError] whatever the arguments, and with [d_mode] bound a
    head count of zero gives [ZeroDivisionError].  Whenever it returns,
    [d_mode] was bound, the head count was not zero, the width was not
    negative and the probability was in [[0, 1]]; the block is in training
    mode, has stored no attention weights, and its per-head width comes
    from [d_mode], not from the width it was given. *)
Theorem X15_constructor_outcomes (env : Env) (width heads : Z) (prob : R)
        (rng : InitValues) :
  (g_d_mode env = None ->
   MultiHeadAttentionBlock_init env width heads prob rng
   = inl (NameError "d_mode"))
  /\ (forall v, g_d_mode env = Some v -> heads = 0%Z ->
        MultiHeadAttentionBlock_init env width heads prob rng
        = inl ZeroDivisionError)
  /\ (forall m,
        MultiHeadAttentionBlock_init env width heads prob rng = inr m ->
        exists v,
          g_d_mode env = Some v /\ heads <> 0%Z /\ (0 <= width)%Z
          /\ 0 <= prob <= 1
          /\ d_k m = (v / heads)%Z
          /\ in_features (w_q m) = Z.to_nat width
          /\ out_features (w_o m) = Z.to_nat width
          /\ training (dropout m) = true
          /\ attention_scores m = None).
Proof.
  unfold MultiHeadAttentionBlock_init, lookup, floordiv.
  split; [|split].
  - intros ->. reflexivity.
  - intros v -> ->. reflexivity.
  - intros m.
    destruct (g_d_mode env) as [v|]; [|discriminate]. cbn [bind ret].
    destruct (Z.eqb_spec heads 0) as [|Hh]; [discriminate|]. cbn [bind ret].
    destruct (Linear_init width width (init_weight rng 0) (init_bias rng 0))
      as [e|lq] eqn:Eq; [discriminate|]. cbn [bind].
    destruct (Linear_init_inv _ _ _ _ _ Eq) as (Hw & _ & Hqi & _).
    rewrite !(Linear_init_ok _ _ _ _ Hw Hw). cbn [bind].
    destruct (Dropout_init prob (init_draw rng)) as [e|d] eqn:Ed;
      [discriminate|]. cbn [bind ret].
    destruct (Dropout_init_inv _ _ _ Ed) as (Hp & ->).
    intros [= <-]. exists v. cbn. repeat split; try assumption; try lra.
Qed.

Lemma X15_constructor_outcomes_witness :
  MultiHeadAttentionBlock_init ex_env_d_mode 10 0 (1 / 10) ex_init
  = inl ZeroDivisionError.
Proof.
  destruct (X15_constructor_outcomes ex_env_d_mode 10 0 (1 / 10) ex_init)
    as (_ & Hzero & _).
  apply (Hzero 10%Z); reflexivity.
Defined.

Lemma view_heads_nonneg (x : Tensor3) (hd dk : Z) :
  (0 <= hd)%Z -> (0 <= dk)%Z ->
  view_heads x hd dk
  = if (Z.of_nat (len0 x) * Z.of_nat (len1 x) * hd * dk
        =? Z.of_nat (len0 x) * Z.of_nat (len1 x) * Z.of_nat (len2 x))%Z
    then inr (split_heads x hd dk)
    else inl (RuntimeError "shape is invalid for input size").
Proof.
  intros Hh Hd. unfold view_heads.
  replace (hd <? -1)%Z with false by (symmetry; apply Z.ltb_ge; lia).
  replace (dk <? -1)%Z with false by (symmetry; apply Z.ltb_ge; lia).
  replace (hd =? -1)%Z with false by (symmetry; apply Z.eqb_neq; lia).
  replace (dk =? -1)%Z with false by (symmetry; apply Z.eqb_neq; lia).
  reflexivity.
Qed.

(** X16.  For non-negative sizes, the view of a non-empty tensor into
    [hd] heads of width [dk] succeeds exactly when [hd * dk] is the width
    of the tensor, and then head [hh] holds the features
    [hh * dk .. hh * dk + dk - 1]; the view of a tensor without entries
    succeeds for every such pair of sizes. *)
Theorem X16_view_heads_exact_split (x : Tensor3) (hd dk : Z) :
  (0 <= hd)%Z -> (0 <= dk)%Z ->
  ((0 < len0 x)%nat -> (0 < len1 x)%nat ->
   ((exists t, view_heads x hd dk = inr t)
    <-> (hd * dk)%Z = Z.of_nat (len2 x)))
  /\ ((len0 x = 0 \/ len1 x = 0)%nat ->
      exists t, view_heads x hd dk = inr t)
  /\ (forall t, view_heads x hd dk = inr t ->
        dim0 t = len0 x /\ dim1 t = len1 x
        /\ dim2 t = Z.to_nat hd /\ dim3 t = Z.to_nat dk
        /\ forall n i hh c,
            at4 t n i hh c = at3 x n i (hh * Z.to_nat dk + c)).
Proof.
  intros Hh Hd. rewrite (view_heads_nonneg x hd dk Hh Hd).
  split; [|split].
  - intros H0 H1.
    destruct (Z.eqb_spec
                (Z.of_nat (len0 x) * Z.of_nat (len1 x) * hd * dk)
                (Z.of_nat (len0 x) * Z.of_nat (len1 x) * Z.of_nat (len2 x)))
      as [E|E].
    + split; [|intros _; eexists; reflexivity].
      intros _.
      apply (Z.mul_reg_l _ _ (Z.of_nat (len0 x) * Z.of_nat (len1 x))); nia.
    + split; [intros [t Ht]; discriminate|].
      intros Heq. exfalso. apply E. rewrite <- Heq. ring.
  - intros Hempty.
    replace (Z.of_nat (len0 x) * Z.of_nat (len1 x))%Z with 0%Z by nia.
    simpl. eexists. reflexivity.
  - intros t.
    destruct (_ =? _)%Z; [|discriminate].
    intros [= <-]. simpl. repeat split.
Qed.

Lemma X16_view_heads_exact_split_witness :
  exists t, view_heads ex_vector 2 1 = inr t.
Proof.
  destruct (X16_view_heads_exact_split ex_vector 2 1) as (Hiff & _ & _);
    try lia.
  apply Hiff; simpl; try lia.
Defined.

(** ** Multi-head attention: the forward pass with several heads *)

Lemma Linear_call_inv (l : Linear) (x out : Tensor3) :
  Linear_call l x = inr out ->
  len0 out = len0 x /\ len1 out = len1 x /\ len2 out = out_features l.
Proof.
  unfold Linear_call.
  destruct (Nat.eqb (len2 x) (in_features l)); [|discriminate].
  intros [= <-]. simpl. auto.
Qed.

Lemma Linear_call_err (l : Linear) (x : Tensor3) (e : PyErr) :
  Linear_call l x = inl e -> exists msg, e = RuntimeError msg.
Proof.
  unfold Linear_call.
  destruct (Nat.eqb (len2 x) (in_features l)); [discriminate|].
  intros [= <-]. eexists; reflexivity.
Qed.

(** X17.  A block whose head count times per-head width is not the width
    its query projection produces (the outcome of the truncating division
    of the constructor) cannot process any non-empty query: with [self]
    bound, [forward] raises [RuntimeError] and leaves the block as it
    was, no attention weights stored. *)
Theorem X17_truncated_block_cannot_run (env : Env)
        (self : MultiHeadAttentionBlock) (q k v : Tensor3)
        (mask : option ZTensor4) :
  g_self env = Some self ->
  (0 <= h self)%Z -> (0 <= d_k self)%Z ->
  (h self * d_k self)%Z <> Z.of_nat (out_features (w_q self)) ->
  (0 < len0 q)%nat -> (0 < len1 q)%nat ->
  exists msg,
    forward env q k v mask = (inl (RuntimeError msg), Some self).
Proof.
  intros Hself Hh Hd Hne H0 H1. unfold forward. rewrite Hself.
  destruct (Linear_call (w_q self) q) as [e|query] eqn:Eq.
  { destruct (Linear_call_err _ _ _ Eq) as [msg ->].
    exists msg. reflexivity. }
  cbn [bind].
  destruct (Linear_call (w_k self) k) as [e|key] eqn:Ek.
  { destruct (Linear_call_err _ _ _ Ek) as [msg ->].
    exists msg. reflexivity. }
  cbn [bind].
  destruct (Linear_call (w_v self) v) as [e|value] eqn:Ev.
  { destruct (Linear_call_err _ _ _ Ev) as [msg ->].
    exists msg. reflexivity. }
  cbn [bind].
  destruct (Linear_call_inv _ _ _ Eq) as (Hq0 & Hq1 & Hq2).
  rewrite (view_heads_nonneg query _ _ Hh Hd).
  rewrite Hq0, Hq1, Hq2.
  destruct (Z.eqb_spec
              (Z.of_nat (len0 q) * Z.of_nat (len1 q) * h self * d_k self)
              (Z.of_nat (len0 q) * Z.of_nat (len1 q)
               * Z.of_nat (out_features (w_q self)))) as [E|_].
  - exfalso. apply Hne.
    apply (Z.mul_reg_l _ _ (Z.of_nat (len0 q) * Z.of_nat (len1 q))); nia.
  - eexists. reflexivity.
Qed.

Lemma X17_truncated_block_cannot_run_witness :
  exists msg,
    forward (mkEnv None (Some ex_block_truncated) None)
            ex_input10 ex_input10 ex_input10 None
    = (inl (RuntimeError msg), Some ex_block_truncated).
Proof.
  apply (X17_truncated_block_cannot_run
           (mkEnv None (Some ex_block_truncated) None) ex_block_truncated
           ex_input10 ex_input10 ex_input10 None);
    simpl; try reflexivity; lia.
Defined.

Lemma view_heads_exact (x : Tensor3) (H dk : nat) :
  len2 x = (H * dk)%nat ->
  view_heads x (Z.of_nat H) (Z.of_nat dk)
  = inr (split_heads x (Z.of_nat H) (Z.of_nat dk)).
Proof.
  intros Hx. rewrite view_heads_nonneg by lia. rewrite Hx.
  replace (Z.of_nat (len0 x) * Z.of_nat (len1 x) * Z.of_nat H * Z.of_nat dk
           =? Z.of_nat (len0 x) * Z.of_nat (len1 x) * Z.of_nat (H * dk))%Z
    with true; [reflexivity|].
  symmetry. apply Z.eqb_eq. rewrite Nat2Z.inj_mul. ring.
Qed.

(** X18.  With [H] heads of width [dk] and [self] bound, in torch as it
    is (no tensor attribute [contigous]), [forward] runs up to the merge
    of the heads: it stores weights of shape [(B, H, Lq, Lk)] and then
    raises [AttributeError].  Head [hh] attends with the features
    [hh * dk .. hh * dk + dk - 1] of the projected queries and keys only:
    its stored weights are the (post-dropout) softmax weights of section
    4.1 on those slices, scaled by [sqrt dk]. *)
Theorem X18_heads_attend_on_feature_slices (env : Env)
        (self : MultiHeadAttentionBlock)
        (B Lq Lk H dk : nat) (q k v : Tensor3) (mask : option ZTensor4) :
  multi_head_setting env self B Lq Lk H dk q k v mask ->
  t_contigous env = None ->
  exists Qp Kp Vp W,
    Linear_call (w_q self) q = inr Qp
    /\ Linear_call (w_k self) k = inr Kp
    /\ Linear_call (w_v self) v = inr Vp
    /\ forward env q k v mask
       = (inl (AttributeError "contigous"),
          Some (set_attention_scores self W))
    /\ (dim0 W = B /\ dim1 W = H /\ dim2 W = Lq /\ dim3 W = Lk)
    /\ (forall n hh i j, (n < B)%nat -> (hh < H)%nat ->
          at4 W n hh i j
          = dropout_entry (dropout self) [n; hh; i; j]
              (spec_weight Lk dk
                 (fun i c => at3 Qp n i (hh * dk + c))
                 (fun j c => at3 Kp n j (hh * dk + c))
                 (mask_allowed mask n hh) i j)).
Proof.
  intros [Hself Hh Hdk HB HH Hdkpos [Hqi Hqo] [Hki Hko] [Hvi Hvo]
          [Hoi Hoo] (Hq0 & Hq1 & Hq2) (Hk0 & Hk1 & Hk2) (Hv0 & Hv1 & Hv2)
          Hmask] Hnone.
  unfold forward. rewrite Hself, Hnone, Hh, Hdk.
  unfold Linear_call.
  rewrite Hq2, Hk2, Hv2, Hqi, Hki, Hvi, !Nat.eqb_refl.
  rewrite Hqo, Hko, Hvo, Hq0, Hq1, Hk0, Hk1, Hv0, Hv1.
  set (Qp := mkT3 B Lq (H * dk)
               (fun n i o => Rsum (H * dk)
                               (fun c => at3 q n i c * weight (w_q self) o c)
                             + lbias (w_q self) o)).
  set (Kp := mkT3 B Lk (H * dk)
               (fun n i o => Rsum (H * dk)
                               (fun c => at3 k n i c * weight (w_k self) o c)
                             + lbias (w_k self) o)).
  set (Vp := mkT3 B Lk (H * dk)
               (fun n i o => Rsum (H * dk)
                               (fun c => at3 v n i c * weight (w_v self) o c)
                             + lbias (w_v self) o)).
  exists Qp, Kp, Vp.
  unfold ret. cbn [bind].
  rewrite !view_heads_exact by reflexivity. cbn [bind].
  destruct (attention_returns
              (transpose12 (split_heads Qp (Z.of_nat H) (Z.of_nat dk)))
              (transpose12 (split_heads Kp (Z.of_nat H) (Z.of_nat dk)))
              (transpose12 (split_heads Vp (Z.of_nat H) (Z.of_nat dk)))
              mask (Some (dropout self)))
    as (x & W & E & (Hw0 & Hw1 & Hw2 & Hw3) & _ & Hw & _).
  { unfold attention_shapes; simpl. repeat split. }
  { simpl. rewrite Nat2Z.id. exact Hmask. }
  rewrite E.
  change (dim0 W = B) in Hw0. change (dim1 W = Z.to_nat (Z.of_nat H)) in Hw1.
  change (dim2 W = Lq) in Hw2. change (dim3 W = Lk) in Hw3.
  rewrite Nat2Z.id in Hw1.
  exists W.
  split; [reflexivity|]. split; [reflexivity|]. split; [reflexivity|].
  split; [reflexivity|].
  split; [repeat split; assumption|].
  intros n hh i j Hn Hhh.
  rewrite (Hw n hh i j) by (simpl; rewrite ?Nat2Z.id; lia).
  simpl. rewrite Nat2Z.id. reflexivity.
Qed.

Lemma ex_multi_head_setting :
  multi_head_setting ex_env_self2 ex_block2 1 1 1 2 1
    (mkT3 1 1 2 (fun _ _ _ => 1)) (mkT3 1 1 2 (fun _ _ _ => 1))
    (mkT3 1 1 2 (fun _ _ _ => 1)) None.
Proof.
  constructor; simpl; try reflexivity; try lia; repeat split; exact I.
Qed.

Lemma X18_heads_attend_on_feature_slices_witness :
  exists W,
    forward ex_env_self2 (mkT3 1 1 2 (fun _ _ _ => 1))
            (mkT3 1 1 2 (fun _ _ _ => 1)) (mkT3 1 1 2 (fun _ _ _ => 1)) None
    = (inl (AttributeError "contigous"),
       Some (set_attention_scores ex_block2 W))
    /\ dim1 W = 2%nat.
Proof.
  destruct (X18_heads_attend_on_feature_slices ex_env_self2 ex_block2
              1 1 1 2 1 _ _ _ None ex_multi_head_setting eq_refl)
    as (Qp & Kp & Vp & W & _ & _ & _ & E & (_ & H1 & _) & _).
  exists W. split; [exact E | exact H1].
Defined.

(** ** Input embedding *)

Lemma ids_in_range_spec (V : nat) (x : IdTensor) :
  ids_in_range V x = true
  <-> forall n i, (n < ids0 x)%nat -> (i < ids1 x)%nat ->
                  (0 <= idat x n i < Z.of_nat V)%Z.
Proof.
  unfold ids_in_range, id_in_range. rewrite forallb_forall. split.
  - intros Hall n i Hn Hi.
    assert (Hrow := Hall n). rewrite forallb_forall in Hrow.
    assert (Hb : (0 <=? idat x n i)%Z && (idat x n i <? Z.of_nat V)%Z = true).
    { apply Hrow; apply in_seq; lia. }
    apply andb_true_iff in Hb. destruct Hb as [Hlo Hhi].
    apply Z.leb_le in Hlo. apply Z.ltb_lt in Hhi. lia.
  - intros Hall n Hn. apply in_seq in Hn.
    rewrite forallb_forall. intros i Hi. apply in_seq in Hi.
    destruct (Hall n i) as [Hlo Hhi]; [lia | lia |].
    apply andb_true_iff. split; [apply Z.leb_le | apply Z.ltb_lt]; lia.
Qed.

(** X20.  On a module its constructor returned, the embedding of a batch
    of token ids returns exactly when every id lies in
    [[0, vocab_size)]: the result then has shape
    [(batch, seq_len, d_model)] and holds, for each token, its row of the
    table multiplied by [sqrt d_model]; a single id outside the range
    makes the whole call raise [IndexError]. *)
Theorem X20_input_embedding_lookup (width vocab_size : Z)
        (w0 : nat -> nat -> R) (m : InputEmbedding) (x : IdTensor) :
  InputEmbedding_init width vocab_size w0 = inr m ->
  ((forall n i, (n < ids0 x)%nat -> (i < ids1 x)%nat ->
                (0 <= idat x n i < vocab_size)%Z) ->
   exists out,
     InputEmbedding_forward m x = inr out
     /\ len0 out = ids0 x /\ len1 out = ids1 x /\ len2 out = Z.to_nat width
     /\ forall n i c,
         at3 out n i c
         = w0 (Z.to_nat (idat x n i)) c * sqrt (IZR width))
  /\ (forall n i, (n < ids0 x)%nat -> (i < ids1 x)%nat ->
                  ~ (0 <= idat x n i < vocab_size)%Z ->
      InputEmbedding_forward m x
      = inl (IndexError "index out of range in self")).
Proof.
  unfold InputEmbedding_init.
  destruct (Z.ltb_spec vocab_size 0) as [|Hv]; [discriminate|].
  destruct (Z.ltb_spec width 0) as [|Hw]; [discriminate|].
  cbn [orb]. intros [= <-].
  unfold InputEmbedding_forward, Embedding_call.
  cbn [embedding num_embeddings embedding_dim emb_weight ie_d_model].
  split.
  - intros Hall.
    assert (Hr : ids_in_range (Z.to_nat vocab_size) x = true).
    { apply ids_in_range_spec. intros n i Hn Hi.
      rewrite Z2Nat.id by exact Hv. apply Hall; assumption. }
    rewrite Hr.
    replace (width <? 0)%Z with false by (symmetry; apply Z.ltb_ge; exact Hw).
    eexists. split; [reflexivity|]. cbn [len0 len1 len2 at3].
    repeat split.
  - intros n i Hn Hi Hout.
    destruct (ids_in_range (Z.to_nat vocab_size) x) eqn:Hr; [|reflexivity].
    exfalso. apply Hout.
    rewrite ids_in_range_spec in Hr. specialize (Hr n i Hn Hi).
    rewrite Z2Nat.id in Hr by exact Hv. exact Hr.
Qed.

Lemma X20_input_embedding_lookup_witness :
  exists m out,
    InputEmbedding_init 4 2 (fun _ _ => 1) = inr m
    /\ InputEmbedding_forward m ex_ids = inr out
    /\ len2 out = 4%nat.
Proof.
  eexists. 
  destruct (X20_input_embedding_lookup 4 2 (fun _ _ => 1) _ ex_ids eq_refl)
    as [Hok _].
  destruct Hok as (out & E & _ & _ & H2 & _).
  - intros n i Hn Hi. simpl in *. lia.
  - exists out. split; [reflexivity|]. split; [exact E | exact H2].
Defined.

(** ** More on the positional encoding *)

(** The forward pass calls the boolean attribute [requires_grad] and so
    raises on every input, before the table is added. *)
Lemma PositionalEncoding_forward_raises (self : PositionalEncoding)
      (x : Tensor3) :
  PositionalEncoding_forward self x
  = inl (TypeError "'bool' object is not callable").
Proof. reflexivity. Qed.

Lemma div_term_zero (d_model : Z) : div_term d_model 0 = 1.
Proof.
  unfold div_term. simpl. rewrite Rmult_0_l. apply exp_0.
Qed.

(** X21.  In the table of every module the constructor returns, each
    entry lies in [[-1, 1]]; position 0 holds 0 at the even and 1 at the
    odd features; features 0 and 1 hold [sin pos] and [cos pos]; and each
    pair of features [(2i, 2i+1)] has squares summing to 1. *)
Theorem X21_positional_table_values (d_model seq_len : Z) (dropout : R)
        (draw : list nat -> bool) (m : PositionalEncoding) :
  PositionalEncoding_init d_model seq_len dropout draw = inr m ->
  (forall pos c, -1 <= at3 (pe m) 0 pos c <= 1)
  /\ (forall i, at3 (pe m) 0 0 (2 * i) = 0
                /\ at3 (pe m) 0 0 (2 * i + 1) = 1)
  /\ (forall pos, at3 (pe m) 0 pos 0 = sin (INR pos)
                  /\ at3 (pe m) 0 pos 1 = cos (INR pos))
  /\ (forall pos i,
        (at3 (pe m) 0 pos (2 * i)) ^ 2
        + (at3 (pe m) 0 pos (2 * i + 1)) ^ 2 = 1).
Proof.
  intros Hm.
  destruct (PositionalEncoding_init_inv _ _ _ _ _ Hm) as (_ & _ & Hpe).
  rewrite Hpe. cbn [at3].
  split; [|split; [|split]].
  - intros pos c. unfold pe_entry.
    destruct (Nat.even c); [apply SIN_bound | apply COS_bound].
  - intros i. rewrite pe_entry_even, pe_entry_odd.
    change (INR 0) with 0. rewrite Rmult_0_l, sin_0, cos_0. auto.
  - intros pos. unfold pe_entry. cbn [Nat.even Nat.div2].
    rewrite div_term_zero, Rmult_1_r. auto.
  - intros pos i. rewrite pe_entry_even, pe_entry_odd.
    rewrite <- !Rsqr_pow2. apply sin2_cos2.
Qed.

Lemma X21_positional_table_values_witness :
  exists m,
    PositionalEncoding_init 4 3 0 keep_all = inr m
    /\ at3 (pe m) 0 0 1 = 1.
Proof.
  assert (E : exists m, PositionalEncoding_init 4 3 0 keep_all = inr m).
  { unfold PositionalEncoding_init, Dropout_init.
    destruct (Rlt_dec 0 0) as [C|_]; [lra|].
    destruct (Rlt_dec 1 0) as [C|_]; [lra|].
    eexists. reflexivity. }
  destruct E as [m E]. exists m. split; [exact E|].
  destruct (X21_positional_table_values 4 3 0 keep_all m E)
    as (_ & Hzero & _).
  apply (Hzero 0%nat).
Defined.

(** X22.  The constructor of the positional encoding returns for every
    probability in [[0, 1]], non-negative sequence length and positive
    even model width, and whenever it returns the probability is in
    [[0, 1]], the length non-negative and the width positive.  An invalid
    probability is reported first ([ValueError]); otherwise a width of 0
    gives [ZeroDivisionError] and an odd width above 1 [RuntimeError]. *)
Theorem X22_positional_constructor_outcomes (d_model seq_len : Z)
        (dropout : R) (draw : list nat -> bool) :
  ((0 <= dropout <= 1 -> (0 <= seq_len)%Z -> (0 < d_model)%Z ->
    Z.even d_model = true ->
    exists m, PositionalEncoding_init d_model seq_len dropout draw = inr m)
   /\ (forall m,
         PositionalEncoding_init d_model seq_len dropout draw = inr m ->
         0 <= dropout <= 1 /\ (0 <= seq_len)%Z /\ (0 < d_model)%Z))
  /\ (dropout < 0 \/ 1 < dropout ->
      exists msg,
        PositionalEncoding_init d_model seq_len dropout draw
        = inl (ValueError msg))
  /\ (0 <= dropout <= 1 -> (0 <= seq_len)%Z -> d_model = 0%Z ->
      PositionalEncoding_init d_model seq_len dropout draw
      = inl ZeroDivisionError)
  /\ (0 <= dropout <= 1 -> (0 <= seq_len)%Z -> (1 < d_model)%Z ->
      Z.even d_model = false ->
      exists msg,
        PositionalEncoding_init d_model seq_len dropout draw
        = inl (RuntimeError msg)).
Proof.
  unfold PositionalEncoding_init.
  split; [|split; [|split]].
  - split.
    + intros Hp Hl Hd Hev.
      rewrite (Dropout_init_ok _ _ Hp). cbn [bind].
      replace (seq_len <? 0)%Z with false by (symmetry; apply Z.ltb_ge; lia).
      replace (d_model <? 0)%Z with false by (symmetry; apply Z.ltb_ge; lia).
      replace (d_model =? 0)%Z with false by (symmetry; apply Z.eqb_neq; lia).
      rewrite Hev. cbn [orb]. eexists. reflexivity.
    + intros m Hm.
      destruct (Dropout_init dropout draw) as [e|d] eqn:Ed; [discriminate|].
      destruct (Dropout_init_inv _ _ _ Ed) as [Hp _].
      cbn [bind] in Hm.
      destruct (Z.ltb_spec seq_len 0); [discriminate|].
      destruct (Z.ltb_spec d_model 0); [discriminate|].
      destruct (Z.eqb_spec d_model 0); [discriminate|].
      split; [lra|]. split; lia.
  - intros Hbad. unfold Dropout_init.
    destruct (Rlt_dec dropout 0); [eexists; reflexivity|].
    destruct (Rlt_dec 1 dropout); [eexists; reflexivity|].
    lra.
  - intros Hp Hl ->. rewrite (Dropout_init_ok _ _ Hp). cbn [bind].
    replace (seq_len <? 0)%Z with false by (symmetry; apply Z.ltb_ge; lia).
    reflexivity.
  - intros Hp Hl Hd Hodd. rewrite (Dropout_init_ok _ _ Hp). cbn [bind].
    replace (seq_len <? 0)%Z with false by (symmetry; apply Z.ltb_ge; lia).
    replace (d_model <? 0)%Z with false by (symmetry; apply Z.ltb_ge; lia).
    replace (d_model =? 0)%Z with false by (symmetry; apply Z.eqb_neq; lia).
    replace (d_model =? 1)%Z with false by (symmetry; apply Z.eqb_neq; lia).
    rewrite Hodd. eexists. reflexivity.
Qed.

Lemma X22_positional_constructor_outcomes_witness :
  PositionalEncoding_init 0 3 (1 / 10) keep_all = inl ZeroDivisionError.
Proof.
  destruct (X22_positional_constructor_outcomes 0 3 (1 / 10) keep_all)
    as (_ & _ & Hzero & _).
  apply Hzero; [lra | lia | reflexivity].
Defined.

(** ** State change of a failing forward pass *)

(** X23.  Whenever the body of [forward] would return with [contigous]
    bound, the same call in torch as it is (no such tensor attribute)
    raises [AttributeError] after the assignment of line 247: the object
    bound to [self] ends with the same attention weights stored, every
    other field unchanged, although the call failed. *)
Theorem X23_weights_stored_before_attribute_error (env : Env)
        (self : MultiHeadAttentionBlock) (q k v : Tensor3)
        (mask : option ZTensor4) (out : Tensor3)
        (st : option MultiHeadAttentionBlock) :
  g_self env = Some self ->
  forward env q k v mask = (inr out, st) ->
  exists W,
    st = Some (set_attention_scores self W)
    /\ forward (mkEnv (g_d_mode env) (g_self env) None) q k v mask
       = (inl (AttributeError "contigous"),
          Some (set_attention_scores self W))
    /\ attention_scores (set_attention_scores self W) = Some W
    /\ w_q (set_attention_scores self W) = w_q self
    /\ w_k (set_attention_scores self W) = w_k self
    /\ w_v (set_attention_scores self W) = w_v self
    /\ w_o (set_attention_scores self W) = w_o self
    /\ h (set_attention_scores self W) = h self
    /\ d_k (set_attention_scores self W) = d_k self.
Proof.
  intros Hself. unfold forward. cbn [g_self t_contigous]. rewrite Hself.
  destruct (query <- Linear_call (w_q self) q;;
            key <- Linear_call (w_k self) k;;
            value <- Linear_call (w_v self) v;;
            query0 <- view_heads query (h self) (d_k self);;
            key0 <- view_heads key (h self) (d_k self);;
            value0 <- view_heads value (h self) (d_k self);;
            attention (transpose12 query0) (transpose12 key0)
              (transpose12 value0) mask (Some (dropout self)))
    as [e|[x W]]; [discriminate|].
  intros [= _ <-]. exists W. repeat split.
Qed.

Lemma X23_weights_stored_before_attribute_error_witness :
  exists W,
    forward ex_env_self ex_input ex_input ex_input None
    = (inl (AttributeError "contigous"),
       Some (set_attention_scores ex_block W)).
Proof.
  assert (E : exists out st,
             forward ex_env_patched ex_input ex_input ex_input None
             = (inr out, st))
    by (eexists; eexists; reflexivity).
  destruct E as (out & st & E).
  destruct (X23_weights_stored_before_attribute_error ex_env_patched ex_block
              ex_input ex_input ex_input None out st eq_refl E)
    as (W & _ & Hraise & _).
  exists W. exact Hraise.
Defined.

(** ** Invariance and bounds of the weights *)

Lemma softmax_shift (n : nat) (a : nat -> R) (t : R) (j : nat) :
  (j < n)%nat ->
  exp (a j + t) / Rsum n (fun c => exp (a c + t))
  = exp (a j) / Rsum n (fun c => exp (a c)).
Proof.
  intros Hj.
  rewrite (Rsum_ext n (fun c => exp (a c + t)) (fun c => exp (a c) * exp t))
    by (intros; apply exp_plus).
  rewrite Rsum_scal_r, exp_plus.
  assert (Ht := exp_pos t).
  assert (Hs : 0 < Rsum n (fun c => exp (a c)))
    by (apply Rsum_pos; [lia | intros; apply exp_pos]).
  field. split; lra.
Qed.

(** X24.  Without a mask, adding one and the same vector to every key of
    a head changes neither the weights nor the output: only differences
    between keys matter. *)
Theorem X24_key_translation_invariance (query key key' value : Tensor4)
        (dropout : option Dropout) (u : nat -> nat -> nat -> R) :
  attention_shapes query key value ->
  attention_shapes query key' value ->
  dim2 key' = dim2 key ->
  (forall n hh j c, at4 key' n hh j c = at4 key n hh j c + u n hh c) ->
  exists out weights out' weights',
    attention query key value None dropout = inr (out, weights)
    /\ attention query key' value None dropout = inr (out', weights')
    /\ forall n hh i, (n < dim0 query)%nat -> (hh < dim1 query)%nat ->
         (forall j, (j < dim2 key)%nat ->
                    at4 weights' n hh i j = at4 weights n hh i j)
         /\ (forall c, at4 out' n hh i c = at4 out n hh i c).
Proof.
  intros Hs Hs' Hk Hu.
  destruct (attention_returns query key value None dropout Hs I)
    as (out & weights & E & _ & _ & Hw & Ho).
  destruct (attention_returns query key' value None dropout Hs' I)
    as (out' & weights' & E' & _ & _ & Hw' & Ho').
  exists out, weights, out', weights'.
  split; [exact E|]. split; [exact E'|].
  intros n hh i Hn Hh.
  assert (Hweights : forall j, (j < dim2 key)%nat ->
                       at4 weights' n hh i j = at4 weights n hh i j).
  { intros j Hj.
    rewrite (Hw n hh i j Hn Hh), (Hw' n hh i j Hn Hh), Hk. f_equal.
    unfold spec_weight, spec_masked_score, mask_allowed.
    set (t := Rsum (dim3 query) (fun c => at4 query n hh i c * u n hh c)
              / sqrt (INR (dim3 query))).
    assert (Hsc : forall c,
               spec_score (dim3 query) (at4 query n hh) (at4 key' n hh) i c
               = spec_score (dim3 query) (at4 query n hh) (at4 key n hh) i c
                 + t).
    { intros c. unfold spec_score, t.
      rewrite (Rsum_ext _ _
                 (fun f => at4 query n hh i f * at4 key n hh c f
                           + at4 query n hh i f * u n hh f))
        by (intros f _; rewrite Hu; ring).
      assert (Hadd : forall m (f g : nat -> R),
                 Rsum m (fun c0 => f c0 + g c0) = Rsum m f + Rsum m g).
      { clear. intros m f g. induction m as [|m IH]; simpl; [ring|].
        rewrite IH. ring. }
      rewrite Hadd. unfold Rdiv. ring. }
    rewrite (Rsum_ext _ (fun c => exp (spec_score (dim3 query)
                                       (at4 query n hh) (at4 key' n hh) i c))
               (fun c => exp (spec_score (dim3 query) (at4 query n hh)
                                (at4 key n hh) i c + t)))
      by (intros c _; rewrite Hsc; reflexivity).
    rewrite Hsc.
    exact (softmax_shift (dim2 key)
             (spec_score (dim3 query) (at4 query n hh) (at4 key n hh) i)
             t j Hj). }
  split; [exact Hweights|].
  intros c. rewrite (Ho n hh i c Hn Hh), (Ho' n hh i c Hn Hh), Hk.
  apply Rsum_ext. intros j Hj. rewrite (Hweights j Hj). reflexivity.
Qed.

Lemma X24_key_translation_invariance_witness :
  exists out weights out' weights',
    attention ex_query ex_key ex_value None None = inr (out, weights)
    /\ attention ex_query
         (mkT4 1 1 2 1 (fun n hh j c => at4 ex_key n hh j c + 3))
         ex_value None None
       = inr (out', weights')
    /\ at4 out' 0 0 0 0 = at4 out 0 0 0 0.
Proof.
  destruct (X24_key_translation_invariance ex_query ex_key
              (mkT4 1 1 2 1 (fun n hh j c => at4 ex_key n hh j c + 3))
              ex_value None (fun _ _ _ => 3))
    as (out & weights & out' & weights' & E & E' & Hsame).
  - exact ex_attention_shapes.
  - unfold attention_shapes; simpl; repeat split; reflexivity.
  - reflexivity.
  - intros n hh j c. reflexivity.
  - exists out, weights, out', weights'.
    split; [exact E|]. split; [exact E'|].
    destruct (Hsame 0%nat 0%nat 0%nat) as [_ Hout]; simpl; try lia.
    apply Hout.
Defined.

(** X25.  Under any mask, when dropout is absent or in evaluation mode,
    the weight a query gives to a masked key is at most
    [exp (-1e9 - Score[i,j0])] for every key [j0] the mask lets it attend
    to: a masked key is negligible as soon as one allowed key has a score
    well above the sentinel. *)
Theorem X25_masked_weight_bound (query key value : Tensor4)
        (mask : option ZTensor4) (dropout : option Dropout)
        (n hh i j j0 : nat) :
  attention_shapes query key value ->
  mask_fits mask (dim0 query) (dim1 query) (dim2 query) (dim2 key) ->
  dropout_is_identity dropout ->
  (n < dim0 query)%nat -> (hh < dim1 query)%nat ->
  (j0 < dim2 key)%nat ->
  mask_allowed mask n hh i j0 = true ->
  mask_allowed mask n hh i j = false ->
  exists out weights,
    attention query key value mask dropout = inr (out, weights)
    /\ 0 < at4 weights n hh i j
       <= exp (sentinel
               - spec_score (dim3 query) (at4 query n hh) (at4 key n hh)
                   i j0).
Proof.
  intros Hs Hm Hid Hn Hh Hj0 Hyes Hno.
  destruct (attention_returns query key value mask dropout Hs Hm)
    as (out & weights & E & _ & _ & Hw & _).
  exists out, weights. split; [exact E|].
  rewrite (Hw n hh i j Hn Hh), dropout_opt_identity by exact Hid.
  split.
  - apply spec_weight_pos. lia.
  - apply (spec_weight_masked_le (dim2 key) (dim3 query) (at4 query n hh)
             (at4 key n hh) (mask_allowed mask n hh) i j j0);
      assumption.
Qed.

Lemma X25_masked_weight_bound_witness :
  exists out weights,
    attention ex_query ex_key ex_value (Some (causal_mask 2)) None
    = inr (out, weights)
    /\ 0 < at4 weights 0 0 0 1.
Proof.
  destruct (X25_masked_weight_bound ex_query ex_key ex_value
              (Some (causal_mask 2)) None 0 0 0 1 0)
    as (out & weights & E & Hpos & _).
  - exact ex_attention_shapes.
  - reflexivity.
  - exact I.
  - simpl; lia.
  - simpl; lia.
  - simpl; lia.
  - reflexivity.
  - reflexivity.
  - exists out, weights. split; [exact E | exact Hpos].
Defined.
